(** * The car instrument cluster of mjpc: dashboard_render.{h,cc}

    A shallow embedding of the dashboard (telemetry sampler, drawing
    helpers, the three gauge widgets and the controller that owns them) and
    of the routines of the goal task ([SimpleCar]), followed by the
    properties of the design document that concern them and by further
    properties of the code.

    Conventions of the embedding.
    - A C++ [double] is a real number: arithmetic is exact, and the
      infinities, NaN and rounding of IEEE 754 are outside the model.
      [M_PI] is [PI]; [cos], [sin] and [sqrt] are those of the reals.
      A [float] literal or [static_cast<float>] is the same real number.
    - The host primitives [mjr_rectangle] and [mjr_text] are recorded, in
      call order, in the [frame] of the environment.
    - An object created with [new] carries the identity it was given at
      allocation; a pointer is an optional object and [nullptr] is [None].
    - Reading through a null pointer or past the end of an array is a
      fault: the computation has no result. *)

From Stdlib Require Import Reals Lra Lia List String ZArith Bool Arith.
Import ListNotations.
Local Open Scope R_scope.

(** ** Numbers *)

Definition M_PI : R := PI.

(** The relational operator [a < b] on doubles, as a boolean. *)
Definition Rltb (a b : R) : bool := if Rlt_dec a b then true else false.

(** [static_cast<int>(x)]: the integer part, rounded toward zero. *)
Definition static_cast_int (x : R) : Z :=
  if Rltb x 0 then (- Int_part (- x))%Z else Int_part x.

(** [mju_norm3] of the host library: the Euclidean length of a 3-vector. *)
Definition mju_norm3 (v : R * R * R) : R :=
  let '(a, b, c) := v in sqrt (a * a + b * b + c * c).

(** ** Host rendering interface *)

(** An opaque rendering context of the host. *)
Inductive mjrContext : Type := Context (handle : nat).

Record mjrRect : Type := MkRect
  { rect_left : Z; rect_bottom : Z; rect_width : Z; rect_height : Z }.

(** The text handed to [mjr_text]: a string literal, or the result of
    [snprintf] with the format shown and its argument. *)
Inductive Text : Type :=
| Literal (s : string)
| Fmt_d (n : Z)            (* "%d" *)
| Fmt_0f (x : R).          (* "%.0f" *)

(** One call of a host drawing primitive. *)
Inductive DrawCall : Type :=
| mjr_rectangle (viewport : mjrRect) (r g b a : R)
| mjr_text (font : Z) (txt : Text) (con : option mjrContext)
           (x y : R) (r g b : R).

Definition is_text (c : DrawCall) : bool :=
  match c with mjr_text _ _ _ _ _ _ _ _ => true | _ => false end.

Definition is_rectangle (c : DrawCall) : bool := negb (is_text c).

(** ** Effects: allocation, drawing, faults *)

Record Env : Type := MkEnv
  { allocated : nat;             (* objects created with [new] so far *)
    frame : list DrawCall }.     (* host draw calls issued so far *)

(** A computation reads and updates the environment, or faults ([None]). *)
Definition M (A : Type) : Type := Env -> option (A * Env).

Definition ret {A} (a : A) : M A := fun e => Some (a, e).

Definition bind {A B} (m : M A) (k : A -> M B) : M B :=
  fun e => match m e with
           | Some (a, e') => k a e'
           | None => None
           end.

Definition fault {A} : M A := fun _ => None.

Notation "x <- m ;; k" := (bind m (fun x => k))
  (at level 61, m at next level, right associativity).
Notation "m ;;; k" := (bind m (fun _ => k))
  (at level 61, right associativity).

(** Issue a sequence of host draw calls. *)
Definition emit (cs : list DrawCall) : M unit :=
  fun e => Some (tt, MkEnv (allocated e) (frame e ++ cs)).

(** An object together with the identity it received from [new]. *)
Record Obj (T : Type) : Type := MkObj { obj_id : nat; obj_val : T }.
Arguments MkObj {T} _ _.
Arguments obj_id {T} _.
Arguments obj_val {T} _.

Definition ptr (T : Type) : Type := option (Obj T).

(** [new T(...)]: a fresh identity, never handed out before. *)
Definition new {T} (v : T) : M (Obj T) :=
  fun e => Some (MkObj (allocated e) v, MkEnv (S (allocated e)) (frame e)).

(** [p->...]: a fault on [nullptr]. *)
Definition deref {T} (p : ptr T) : M (Obj T) :=
  match p with Some o => ret o | None => fault end.

(** [a[i]] on an array of known length: a fault out of range. *)
Definition index (a : list R) (i : nat) : M R :=
  match nth_error a i with Some v => ret v | None => fault end.

(** ** Drawing helpers (dashboard_render.cc, lines 78-131) *)

Definition segment_rect (x y segment_length : R) : mjrRect :=
  {| rect_left := static_cast_int (x - segment_length / 2);
     rect_bottom := static_cast_int (y - segment_length / 2);
     rect_width := static_cast_int segment_length;
     rect_height := static_cast_int segment_length |}.

Definition DrawArc (center_x center_y radius start_angle end_angle : R)
    (r g b a : R) (mjr_context : option mjrContext) : list DrawCall :=
  let segments := 100%nat in
  let angle_step := (end_angle - start_angle) / INR segments in
  let segment_length := radius * 0.05 in
  map (fun i : nat =>
         let angle := start_angle + INR i * angle_step in
         let x := center_x + radius * cos angle in
         let y := center_y + radius * sin angle in
         mjr_rectangle (segment_rect x y segment_length) r g b a)
      (seq 0 segments).

Definition DrawCircle (center_x center_y radius : R)
    (r g b a : R) (mjr_context : option mjrContext) : list DrawCall :=
  let segments := 100%nat in
  let angle_step := (2 * M_PI) / INR segments in
  let segment_length := radius * 0.05 in
  map (fun i : nat =>
         let angle := INR i * angle_step in
         let x := center_x + radius * cos angle in
         let y := center_y + radius * sin angle in
         mjr_rectangle (segment_rect x y segment_length) r g b a)
      (seq 0 segments).

(** The ring loop of [DrawFilledCircle], with its [break]. *)
Fixpoint DrawFilledCircle_rings (idx : list nat) (center_x center_y radius : R)
    (r g b a : R) (mjr_context : option mjrContext) : list DrawCall :=
  match idx with
  | [] => []
  | i :: rest =>
      let ring_radius := radius - INR i * 2 in
      if Rltb ring_radius 0 then []
      else DrawCircle center_x center_y ring_radius r g b a mjr_context
           ++ DrawFilledCircle_rings rest center_x center_y radius
                r g b a mjr_context
  end.

Definition DrawFilledCircle (center_x center_y radius : R)
    (r g b a : R) (mjr_context : option mjrContext) : list DrawCall :=
  let rings := Z.to_nat (static_cast_int (radius / 2)) in
  DrawFilledCircle_rings (seq 0 rings) center_x center_y radius
    r g b a mjr_context.

(** ** Display elements (dashboard_render.h) *)

(** The base class: position, size and the context given at construction. *)
Record DisplayElement : Type := MkDisplayElement
  { x_ : R; y_ : R; width_ : R; height_ : R;
    mjr_context_ : option mjrContext }.

(** [DisplayElement::UpdatePosition]. *)
Definition DisplayElement_UpdatePosition (x y : R) (this : DisplayElement)
  : DisplayElement :=
  {| x_ := x; y_ := y; width_ := width_ this; height_ := height_ this;
     mjr_context_ := mjr_context_ this |}.

Record Speedometer : Type := MkSpeedometer
  { Speedometer_base : DisplayElement; speed_ : R }.

Record Tachometer : Type := MkTachometer
  { Tachometer_base : DisplayElement; rpm_ : R }.

Record FuelGauge : Type := MkFuelGauge
  { FuelGauge_base : DisplayElement; fuel_level_ : R }.

(** The constructors: the stored value starts at [0.0]. *)
Definition Speedometer_new (x y width height : R) (context : option mjrContext)
  : Speedometer := MkSpeedometer (MkDisplayElement x y width height context) 0.0.

Definition Tachometer_new (x y width height : R) (context : option mjrContext)
  : Tachometer := MkTachometer (MkDisplayElement x y width height context) 0.0.

Definition FuelGauge_new (x y width height : R) (context : option mjrContext)
  : FuelGauge := MkFuelGauge (MkDisplayElement x y width height context) 0.0.

(** The interface of the base class: the two pure virtual methods, and
    access to the inherited part. *)
Class Element (T : Type) : Type :=
  { base : T -> DisplayElement;
    with_base : DisplayElement -> T -> T;
    render : T -> M T;
    update : R -> T -> T }.

Definition UpdatePosition {T} `{Element T} (x y : R) (this : T) : T :=
  with_base (DisplayElement_UpdatePosition x y (base this)) this.

(** ** Parts shared by the three [render] bodies *)

(** The colours of the status arc. *)
Inductive Zone : Type := Green | Yellow | Red.

Definition zone_eqb (a b : Zone) : bool :=
  match a, b with
  | Green, Green | Yellow, Yellow | Red, Red => true
  | _, _ => false
  end.

(** One [DrawArc] call of the status arc: its colour and its two angles. *)
Record Segment : Type := MkSegment
  { seg_zone : Zone; seg_from : R; seg_to : R }.

Definition draw_segment (center_x center_y radius : R)
    (con : option mjrContext) (s : Segment) : list DrawCall :=
  match seg_zone s with
  | Green => DrawArc center_x center_y radius (seg_from s) (seg_to s)
               0.0 1.0 0.0 1.0 con
  | Yellow => DrawArc center_x center_y radius (seg_from s) (seg_to s)
               1.0 1.0 0.0 1.0 con
  | Red => DrawArc center_x center_y radius (seg_from s) (seg_to s)
               1.0 0.0 0.0 1.0 con
  end.

(** "Draw background circle": disc, outer ring, inner ring. *)
Definition draw_background (center_x center_y radius : R)
    (con : option mjrContext) : list DrawCall :=
  DrawFilledCircle center_x center_y radius 0.1 0.1 0.1 1.0 con
  ++ DrawCircle center_x center_y radius 0.8 0.8 0.8 1.0 con
  ++ DrawCircle center_x center_y (radius - 5.0) 0.2 0.2 0.2 1.0 con.

(** One scale mark: a 3x3 rectangle at [radius - 10] along [angle]. *)
Definition draw_mark (center_x center_y radius angle : R) : DrawCall :=
  let mark_radius := radius - 10.0 in
  let mark_x := center_x + mark_radius * cos angle in
  let mark_y := center_y + mark_radius * sin angle in
  mjr_rectangle
    {| rect_left := static_cast_int (mark_x - 1.0);
       rect_bottom := static_cast_int (mark_y - 1.0);
       rect_width := 3; rect_height := 3 |}
    1.0 1.0 1.0 1.0.

(** One scale label at [label_radius] along [angle]. *)
Definition draw_label (center_x center_y label_radius angle : R)
    (txt : Text) (con : option mjrContext) : DrawCall :=
  let label_x := center_x + label_radius * cos angle in
  let label_y := center_y + label_radius * sin angle in
  mjr_text 0 txt con label_x label_y 1.0 1.0 1.0.

(** The angle of mark [i] of [num_marks] on the scale. *)
Definition mark_angle (start_angle end_angle : R) (num_marks i : nat) : R :=
  start_angle + (end_angle - start_angle) * INR i / INR (num_marks - 1).

(** "Draw needle as a series of small rectangles". *)
Definition draw_needle (center_x center_y needle_x needle_y : R)
    (num_needle_segments : nat) (half : R) (side : Z) : list DrawCall :=
  map (fun i : nat =>
         let t := INR i / INR (num_needle_segments - 1) in
         let segment_x := center_x + t * (needle_x - center_x) in
         let segment_y := center_y + t * (needle_y - center_y) in
         mjr_rectangle
           {| rect_left := static_cast_int (segment_x - half);
              rect_bottom := static_cast_int (segment_y - half);
              rect_width := side; rect_height := side |}
           1.0 0.0 0.0 1.0)
      (seq 0 num_needle_segments).

(** "Draw center circle", the readout, the unit and the gauge name. *)
Definition draw_hub (center_x center_y radius hub : R) (readout : Text)
    (unit_name gauge_name : string) (con : option mjrContext)
  : list DrawCall :=
  DrawFilledCircle center_x center_y hub 0.0 0.0 0.0 1.0 con
  ++ DrawCircle center_x center_y hub 1.0 1.0 1.0 1.0 con
  ++ [ mjr_text 0 readout con center_x (center_y + 5.0) 1.0 1.0 1.0;
       mjr_text 0 (Literal unit_name) con center_x (center_y - 15.0)
         0.8 0.8 0.8;
       mjr_text 0 (Literal gauge_name) con center_x
         (center_y - radius - 10.0) 1.0 1.0 1.0 ].

(** ** Speedometer (dashboard_render.cc, lines 218-334) *)

Module Speedometer.
Definition min_speed : R := 0.0.
Definition max_speed : R := 240.0.
Definition start_angle : R := - M_PI / 2.
Definition end_angle : R := M_PI / 2.
Definition num_marks : nat := 13.

(** "Clamp speed". *)
Definition clamped_speed (speed : R) : R :=
  if Rltb max_speed speed then max_speed
  else if Rltb speed min_speed then min_speed
  else speed.

(** The body of the scale loop for mark [i]. *)
Definition mark (center_x center_y radius : R) (con : option mjrContext)
    (i : nat) : list DrawCall :=
  let angle := mark_angle start_angle end_angle num_marks i in
  draw_mark center_x center_y radius angle
  :: (if (i mod 2 =? 0)%nat then
        let speed_value :=
          static_cast_int
            (min_speed + (max_speed - min_speed) * INR i
                         / INR (num_marks - 1)) in
        [draw_label center_x center_y (radius - 30.0) angle
           (Fmt_d speed_value) con]
      else []).

Definition scale (center_x center_y radius : R) (con : option mjrContext)
  : list DrawCall :=
  flat_map (mark center_x center_y radius con) (seq 0 num_marks).

Definition speed_angle (clamped : R) : R :=
  start_angle + (end_angle - start_angle) * (clamped / max_speed).

(** "Draw colored arc for current speed": the [DrawArc] calls, in order. *)
Definition arc (clamped : R) : list Segment :=
  let at80 := start_angle + (end_angle - start_angle) * (80.0 / max_speed) in
  let at160 :=
    start_angle + (end_angle - start_angle) * (160.0 / max_speed) in
  if Rltb clamped 80.0 then
    [MkSegment Green start_angle (speed_angle clamped)]
  else
    MkSegment Green start_angle at80
    :: (if Rltb clamped 160.0 then
          [MkSegment Yellow at80 (speed_angle clamped)]
        else
          [MkSegment Yellow at80 at160;
           MkSegment Red at160 (speed_angle clamped)]).

(** Everything [render] draws once the context check has passed. *)
Definition draw (this : Speedometer) : list DrawCall :=
  let con := mjr_context_ (Speedometer_base this) in
  let clamped := clamped_speed (speed_ this) in
  let center_x := x_ (Speedometer_base this) in
  let center_y := y_ (Speedometer_base this) in
  let radius := width_ (Speedometer_base this) in
  let needle_length := radius - 40.0 in
  let needle_x := center_x + needle_length * cos (speed_angle clamped) in
  let needle_y := center_y + needle_length * sin (speed_angle clamped) in
  draw_background center_x center_y radius con
  ++ scale center_x center_y radius con
  ++ flat_map (draw_segment center_x center_y (radius - 20.0) con)
       (arc clamped)
  ++ draw_needle center_x center_y needle_x needle_y 20 2.0 5
  ++ draw_hub center_x center_y radius 15.0 (Fmt_0f clamped)
       "km/h" "SPEED" con.

Definition render (this : Speedometer) : M Speedometer :=
  match mjr_context_ (Speedometer_base this) with
  | None => ret this
  | Some _ => emit (draw this) ;;; ret this
  end.

Definition update (speed : R) (this : Speedometer) : Speedometer :=
  {| Speedometer_base := Speedometer_base this; speed_ := speed |}.
End Speedometer.

#[export] Instance Speedometer_Element : Element Speedometer :=
  {| base := Speedometer_base;
     with_base := fun b this => MkSpeedometer b (speed_ this);
     render := Speedometer.render;
     update := Speedometer.update |}.

(** ** Tachometer (dashboard_render.cc, lines 336-451) *)

Module Tachometer.
Definition min_rpm : R := 0.0.
Definition max_rpm : R := 8000.0.
Definition start_angle : R := - M_PI / 2.
Definition end_angle : R := M_PI / 2.
Definition num_marks : nat := 9.

(** "Clamp RPM". *)
Definition clamped_rpm (rpm : R) : R :=
  if Rltb max_rpm rpm then max_rpm
  else if Rltb rpm min_rpm then min_rpm
  else rpm.

(** The body of the scale loop for mark [i]: the label is not guarded. *)
Definition mark (center_x center_y radius : R) (con : option mjrContext)
    (i : nat) : list DrawCall :=
  let angle := mark_angle start_angle end_angle num_marks i in
  let rpm_value :=
    static_cast_int
      (min_rpm + (max_rpm - min_rpm) * INR i / INR (num_marks - 1)) in
  [ draw_mark center_x center_y radius angle;
    draw_label center_x center_y (radius - 25.0) angle
      (Fmt_d (Z.quot rpm_value 1000)) con ].

Definition scale (center_x center_y radius : R) (con : option mjrContext)
  : list DrawCall :=
  flat_map (mark center_x center_y radius con) (seq 0 num_marks).

Definition rpm_angle (clamped : R) : R :=
  start_angle + (end_angle - start_angle) * (clamped / max_rpm).

(** "Draw colored arc for current RPM": the [DrawArc] calls, in order. *)
Definition arc (clamped : R) : list Segment :=
  let at4000 :=
    start_angle + (end_angle - start_angle) * (4000.0 / max_rpm) in
  let at6000 :=
    start_angle + (end_angle - start_angle) * (6000.0 / max_rpm) in
  if Rltb clamped 4000.0 then
    [MkSegment Green start_angle (rpm_angle clamped)]
  else
    MkSegment Green start_angle at4000
    :: (if Rltb clamped 6000.0 then
          [MkSegment Yellow at4000 (rpm_angle clamped)]
        else
          [MkSegment Yellow at4000 at6000;
           MkSegment Red at6000 (rpm_angle clamped)]).

Definition draw (this : Tachometer) : list DrawCall :=
  let con := mjr_context_ (Tachometer_base this) in
  let clamped := clamped_rpm (rpm_ this) in
  let center_x := x_ (Tachometer_base this) in
  let center_y := y_ (Tachometer_base this) in
  let radius := width_ (Tachometer_base this) in
  let needle_length := radius - 30.0 in
  let needle_x := center_x + needle_length * cos (rpm_angle clamped) in
  let needle_y := center_y + needle_length * sin (rpm_angle clamped) in
  draw_background center_x center_y radius con
  ++ scale center_x center_y radius con
  ++ flat_map (draw_segment center_x center_y (radius - 15.0) con)
       (arc clamped)
  ++ draw_needle center_x center_y needle_x needle_y 15 1.5 4
  ++ draw_hub center_x center_y radius 10.0 (Fmt_0f (clamped / 1000))
       "RPM" "TACH" con.

Definition render (this : Tachometer) : M Tachometer :=
  match mjr_context_ (Tachometer_base this) with
  | None => ret this
  | Some _ => emit (draw this) ;;; ret this
  end.

Definition update (rpm : R) (this : Tachometer) : Tachometer :=
  {| Tachometer_base := Tachometer_base this; rpm_ := rpm |}.
End Tachometer.

#[export] Instance Tachometer_Element : Element Tachometer :=
  {| base := Tachometer_base;
     with_base := fun b this => MkTachometer b (rpm_ this);
     render := Tachometer.render;
     update := Tachometer.update |}.

(** ** Fuel gauge (dashboard_render.cc, lines 453-566) *)

Module FuelGauge.
(** The scale runs from [M_PI / 2] down to [- M_PI / 2]. *)
Definition start_angle : R := M_PI / 2.
Definition end_angle : R := - M_PI / 2.
Definition num_marks : nat := 11.

(** "Clamp fuel level". *)
Definition clamped_fuel (fuel_level : R) : R :=
  if Rltb 100.0 fuel_level then 100.0
  else if Rltb fuel_level 0.0 then 0.0
  else fuel_level.

(** The body of the scale loop for mark [i]; the label is computed from
    the clamped fuel level. *)
Definition mark (clamped : R) (center_x center_y radius : R)
    (con : option mjrContext) (i : nat) : list DrawCall :=
  let angle := mark_angle start_angle end_angle num_marks i in
  draw_mark center_x center_y radius angle
  :: (if (i mod 2 =? 0)%nat then
        let fuel_value :=
          static_cast_int (100.0 - (clamped / 100.0) * INR i * 10.0) in
        [draw_label center_x center_y (radius - 25.0) angle
           (Fmt_d fuel_value) con]
      else []).

Definition scale (clamped : R) (center_x center_y radius : R)
    (con : option mjrContext) : list DrawCall :=
  flat_map (mark clamped center_x center_y radius con) (seq 0 num_marks).

Definition fuel_angle (clamped : R) : R :=
  start_angle + (end_angle - start_angle) * (1.0 - clamped / 100.0).

(** "Draw colored arc for current fuel level": the [DrawArc] calls, in
    order; the tests are [clamped_fuel > 75.0] and [clamped_fuel > 25.0]. *)
Definition arc (clamped : R) : list Segment :=
  if Rltb 75.0 clamped then
    [MkSegment Green (fuel_angle clamped) end_angle]
  else if Rltb 25.0 clamped then
    let mid_angle := start_angle + (end_angle - start_angle) * 0.25 in
    [MkSegment Yellow (fuel_angle clamped) mid_angle;
     MkSegment Green mid_angle end_angle]
  else
    let mid_angle := start_angle + (end_angle - start_angle) * 0.25 in
    let low_angle := start_angle + (end_angle - start_angle) * 0.75 in
    [MkSegment Red (fuel_angle clamped) low_angle;
     MkSegment Yellow low_angle mid_angle;
     MkSegment Green mid_angle end_angle].

Definition draw (this : FuelGauge) : list DrawCall :=
  let con := mjr_context_ (FuelGauge_base this) in
  let clamped := clamped_fuel (fuel_level_ this) in
  let center_x := x_ (FuelGauge_base this) in
  let center_y := y_ (FuelGauge_base this) in
  let radius := width_ (FuelGauge_base this) in
  let needle_length := radius - 30.0 in
  let needle_x := center_x + needle_length * cos (fuel_angle clamped) in
  let needle_y := center_y + needle_length * sin (fuel_angle clamped) in
  draw_background center_x center_y radius con
  ++ scale clamped center_x center_y radius con
  ++ flat_map (draw_segment center_x center_y (radius - 15.0) con)
       (arc clamped)
  ++ draw_needle center_x center_y needle_x needle_y 15 1.5 4
  ++ draw_hub center_x center_y radius 10.0 (Fmt_0f clamped)
       "%" "FUEL" con.

Definition render (this : FuelGauge) : M FuelGauge :=
  match mjr_context_ (FuelGauge_base this) with
  | None => ret this
  | Some _ => emit (draw this) ;;; ret this
  end.

Definition update (fuel_level : R) (this : FuelGauge) : FuelGauge :=
  {| FuelGauge_base := FuelGauge_base this; fuel_level_ := fuel_level |}.
End FuelGauge.

#[export] Instance FuelGauge_Element : Element FuelGauge :=
  {| base := FuelGauge_base;
     with_base := fun b this => MkFuelGauge b (fuel_level_ this);
     render := FuelGauge.render;
     update := FuelGauge.update |}.

(** ** Simulation state of the host *)

(** An opaque model of the host. *)
Inductive mjModel : Type := Model (handle : nat).

(** The arrays of [mjData] that the code reads, with their lengths. *)
Record mjData : Type := MkData { qvel : list R; xpos : list R }.

(** ** Dashboard (dashboard_render.cc, lines 22-76 and 133-215) *)

(** [DashboardData] is declared in dashboard_data.h; these are the three
    fields that dashboard_render.cc reads and writes. *)
Record DashboardData : Type := MkDashboardData
  { speed : R; rpm : R; fuel_level : R }.

Record Dashboard : Type := MkDashboard
  { data_ : DashboardData;
    Dashboard_mjr_context_ : option mjrContext;
    speedometer_ : ptr Speedometer;
    tachometer_ : ptr Tachometer;
    fuel_gauge_ : ptr FuelGauge }.

(** [Dashboard::Dashboard()]. *)
Definition Dashboard_new : Dashboard :=
  {| data_ := {| speed := 0.0; rpm := 0.0; fuel_level := 100.0 |};
     Dashboard_mjr_context_ := None;
     speedometer_ := None;
     tachometer_ := None;
     fuel_gauge_ := None |}.

(** [if (p) p->f(...)] for a method that updates the object in place. *)
Definition if_present {T} (f : T -> T) (p : ptr T) : ptr T :=
  match p with
  | Some o => Some (MkObj (obj_id o) (f (obj_val o)))
  | None => None
  end.

(** [p->f(...)]: a fault on [nullptr]; the object keeps its identity. *)
Definition invoke {T} (method : T -> M T) (p : ptr T) : M (ptr T) :=
  o <- deref p ;;
  v <- method (obj_val o) ;;
  ret (Some (MkObj (obj_id o) v)).

Module Dashboard.

(** [Dashboard::Initialize()]: an empty body. *)
Definition Initialize (this : Dashboard) : M Dashboard := ret this.

Definition UpdateData (model : mjModel) (data : mjData) (this : Dashboard)
  : M Dashboard :=
  v0 <- index (qvel data) 0 ;;
  v1 <- index (qvel data) 1 ;;
  v2 <- index (qvel data) 2 ;;
  let speed_ms := mju_norm3 (v0, v1, v2) in
  let speed' := speed_ms * 3.6 in
  let rpm_scaling := 100.0 in
  let rpm' := speed' * rpm_scaling in
  let rpm' := if Rltb 8000.0 rpm' then 8000.0
              else if Rltb rpm' 0.0 then 0.0
              else rpm' in
  let fuel' := fuel_level (data_ this) - 0.001 in
  let fuel' := if Rltb fuel' 0.0 then 0.0 else fuel' in
  ret {| data_ := {| speed := speed'; rpm := rpm'; fuel_level := fuel' |};
         Dashboard_mjr_context_ := Dashboard_mjr_context_ this;
         speedometer_ := if_present (update speed') (speedometer_ this);
         tachometer_ := if_present (update rpm') (tachometer_ this);
         fuel_gauge_ := if_present (update fuel') (fuel_gauge_ this) |}.

(** The layout computed from the frame rectangle. *)
Definition center_x (rect : mjrRect) : R := IZR (rect_width rect) / 2.0.
Definition center_y (rect : mjrRect) : R :=
  IZR (rect_height rect) / 2.0 - 100.
Definition speedometer_radius : R := 150.0.
Definition small_gauge_radius : R := 80.0.
Definition speedometer_x (rect : mjrRect) : R := center_x rect.
Definition speedometer_y (rect : mjrRect) : R := center_y rect.
Definition tachometer_x (rect : mjrRect) : R :=
  center_x rect - speedometer_radius - small_gauge_radius - 20.0.
Definition tachometer_y (rect : mjrRect) : R := center_y rect.
Definition fuel_gauge_x (rect : mjrRect) : R :=
  center_x rect + speedometer_radius + small_gauge_radius + 20.0.
Definition fuel_gauge_y (rect : mjrRect) : R := center_y rect.

(** "Create display elements if they don't exist", else "Update positions
    of existing elements". *)
Definition place (mjr_context : option mjrContext) (rect : mjrRect)
    (this : Dashboard) : M Dashboard :=
  match speedometer_ this with
  | None =>
      s <- new (Speedometer_new (speedometer_x rect) (speedometer_y rect)
                  speedometer_radius speedometer_radius mjr_context) ;;
      t <- new (Tachometer_new (tachometer_x rect) (tachometer_y rect)
                  small_gauge_radius small_gauge_radius mjr_context) ;;
      f <- new (FuelGauge_new (fuel_gauge_x rect) (fuel_gauge_y rect)
                  small_gauge_radius small_gauge_radius mjr_context) ;;
      ret {| data_ := data_ this;
             Dashboard_mjr_context_ := Dashboard_mjr_context_ this;
             speedometer_ := Some s;
             tachometer_ := Some t;
             fuel_gauge_ := Some f |}
  | Some _ =>
      s <- invoke (fun o => ret (UpdatePosition (speedometer_x rect)
                                   (speedometer_y rect) o))
             (speedometer_ this) ;;
      t <- invoke (fun o => ret (UpdatePosition (tachometer_x rect)
                                   (tachometer_y rect) o))
             (tachometer_ this) ;;
      f <- invoke (fun o => ret (UpdatePosition (fuel_gauge_x rect)
                                   (fuel_gauge_y rect) o))
             (fuel_gauge_ this) ;;
      ret {| data_ := data_ this;
             Dashboard_mjr_context_ := Dashboard_mjr_context_ this;
             speedometer_ := s;
             tachometer_ := t;
             fuel_gauge_ := f |}
  end.

Definition Render (model : mjModel) (data : mjData)
    (mjr_context : option mjrContext) (rect : mjrRect) (this : Dashboard)
  : M Dashboard :=
  this <- UpdateData model data this ;;
  let this := {| data_ := data_ this;
                 Dashboard_mjr_context_ := mjr_context;
                 speedometer_ := speedometer_ this;
                 tachometer_ := tachometer_ this;
                 fuel_gauge_ := fuel_gauge_ this |} in
  this <- place mjr_context rect this ;;
  s <- invoke render (speedometer_ this) ;;
  t <- invoke render (tachometer_ this) ;;
  f <- invoke render (fuel_gauge_ this) ;;
  ret {| data_ := data_ this;
         Dashboard_mjr_context_ := Dashboard_mjr_context_ this;
         speedometer_ := s;
         tachometer_ := t;
         fuel_gauge_ := f |}.

End Dashboard.

(** ** Sequences of calls on one controller *)

Inductive Call : Type :=
| CallInitialize
| CallUpdateData (model : mjModel) (data : mjData)
| CallRender (model : mjModel) (data : mjData)
             (mjr_context : option mjrContext) (rect : mjrRect).

Definition call (c : Call) (this : Dashboard) : M Dashboard :=
  match c with
  | CallInitialize => Dashboard.Initialize this
  | CallUpdateData model data => Dashboard.UpdateData model data this
  | CallRender model data mjr_context rect =>
      Dashboard.Render model data mjr_context rect this
  end.

Fixpoint calls (cs : list Call) (this : Dashboard) : M Dashboard :=
  match cs with
  | [] => ret this
  | c :: rest => this' <- call c this ;; calls rest this'
  end.

(** The state is available when the three velocity coordinates exist. *)
Definition available (data : mjData) : bool :=
  (3 <=? List.length (qvel data))%nat.

(** The state handed to a call, if any, is available. *)
Definition call_ready (c : Call) : bool :=
  match c with
  | CallInitialize => true
  | CallUpdateData _ data => available data
  | CallRender _ data _ _ => available data
  end.

(** The fuel level that a call leaves, from the level it found. *)
Definition fuel_after (c : Call) (fuel : R) : R :=
  match c with
  | CallInitialize => fuel
  | CallUpdateData _ _ => Rmax (fuel - 0.001) 0
  | CallRender _ _ _ _ => Rmax (fuel - 0.001) 0
  end.

(** A controller as constructed, in an environment with nothing drawn. *)
Definition Env0 (n : nat) : Env := MkEnv n [].

(** ** The goal task: [SimpleCar::ModifyScene] (simple_car.cc, lines 74-112) *)

Inductive mjtObj : Type := mjOBJ_BODY | mjOBJ_SITE.

Inductive mjtGeom : Type := mjGEOM_LABEL | mjGEOM_OTHER (code : Z).

(** The label text: [snprintf] with "Speed: %.2f m/s (%.1f km/h)". *)
Inductive GeomLabel : Type :=
| SpeedLabel (speed_ms speed_kmh : R)
| OtherLabel (s : string).

(** The fields of [mjvGeom] that the routine writes. *)
Record mjvGeom : Type := MkGeom
  { geom_type : mjtGeom;
    geom_size : R * R * R;
    geom_pos : R * R * R;
    geom_rgba : R * R * R * R;
    geom_label : GeomLabel }.

(** A scene: [geoms] holds the [ngeom] slots in use, of [maxgeom]. *)
Record mjvScene : Type := MkScene
  { ngeom : Z; maxgeom : Z; geoms : list mjvGeom }.

Section GoalTask.

(** The name lookups of the host: [mj_name2id] answers a negative id, and
    [SensorByName] a null pointer, for a name the model does not have. *)
Variable mj_name2id : mjModel -> mjtObj -> string -> Z.
Variable SensorByName : mjModel -> mjData -> string -> option (R * R * R).

(** The result is the scene after the call; [None] is a fault. *)
Definition ModifyScene (model : mjModel) (data : mjData) (scene : mjvScene)
  : option mjvScene :=
  let car_body_id := mj_name2id model mjOBJ_BODY "car" in
  if (car_body_id <? 0)%Z then Some scene
  else
    match SensorByName model data "car_velocity" with
    | None => Some scene
    | Some car_velocity =>
        let speed_ms := mju_norm3 car_velocity in
        let speed_kmh := speed_ms * 3.6 in
        let at_ := Z.to_nat (3 * car_body_id) in
        if (ngeom scene <? maxgeom scene)%Z then
          match nth_error (xpos data) at_,
                nth_error (xpos data) (at_ + 1),
                nth_error (xpos data) (at_ + 2) with
          | Some p0, Some p1, Some p2 =>
              let geom :=
                {| geom_type := mjGEOM_LABEL;
                   geom_size := (0.15, 0.15, 0.15);
                   geom_pos := (p0, p1, p2 + 0.2);
                   geom_rgba := (1.0, 1.0, 1.0, 1.0);
                   geom_label := SpeedLabel speed_ms speed_kmh |} in
              Some {| ngeom := ngeom scene + 1;
                      maxgeom := maxgeom scene;
                      geoms := geoms scene ++ [geom] |}
          | _, _, _ => None
          end
        else Some scene
    end.

End GoalTask.

(** ** The goal task: residual and transition (simple_car.cc, lines 34-72) *)

(** The arrays of [mjData] that [Residual] and [TransitionLocked] use, with
    their lengths. *)
Record mjGoalData : Type := MkGoalData
  { qpos : list R; mocap_pos : list R; ctrl : list R }.

(** [a[i] = v] on an array of known length: a fault out of range. *)
Definition store (a : list R) (i : nat) (v : R) : M (list R) :=
  if (i <? List.length a)%nat then ret (firstn i a ++ v :: skipn (S i) a)
  else fault.

(** [mju_norm(v, 2)] of the host library: the length of a 2-vector. *)
Definition mju_norm2 (v : R * R) : R :=
  let '(a, b) := v in sqrt (a * a + b * b).

(** [SimpleCar::ResidualFn::Residual]: the result is the [residual] buffer
    after the call. *)
Definition Residual (model : mjModel) (data : mjGoalData)
    (residual : list R) : M (list R) :=
  q0 <- index (qpos data) 0 ;;
  g0 <- index (mocap_pos data) 0 ;;
  residual <- store residual 0 (q0 - g0) ;;
  q1 <- index (qpos data) 1 ;;
  g1 <- index (mocap_pos data) 1 ;;
  residual <- store residual 1 (q1 - g1) ;;
  c0 <- index (ctrl data) 0 ;;
  residual <- store residual 2 c0 ;;
  c1 <- index (ctrl data) 1 ;;
  residual <- store residual 3 c1 ;;
  ret residual.

(** [SimpleCar::TransitionLocked]: [uniform] holds the two numbers that
    [absl::Uniform<double>(gen_, -2.0, 2.0)] draws when the goal moves; the
    result is the data after the call. *)
Definition TransitionLocked (uniform : R * R) (model : mjModel)
    (data : mjGoalData) : M mjGoalData :=
  car0 <- index (qpos data) 0 ;;
  car1 <- index (qpos data) 1 ;;
  goal0 <- index (mocap_pos data) 0 ;;
  goal1 <- index (mocap_pos data) 1 ;;
  let car_to_goal := (goal0 - car0, goal1 - car1) in
  if Rltb (mju_norm2 car_to_goal) 0.2 then
    m <- store (mocap_pos data) 0 (fst uniform) ;;
    m <- store m 1 (snd uniform) ;;
    m <- store m 2 0.01 ;;
    ret {| qpos := qpos data; mocap_pos := m; ctrl := ctrl data |}
  else ret data.

(** * Vocabulary of the properties *)

(** The clamp of the design document: [min(max(v, lo), hi)]. *)
Definition spec_clamp (lo hi v : R) : R := Rmin (Rmax v lo) hi.

(** The rpm proxy of the design document. *)
Definition spec_rpm (speed_kmh : R) : R := spec_clamp 0 8000 (speed_kmh * 100).

(** What [UpdateData] stores for the velocity [(v0, v1, v2)] when the fuel
    level was [fuel]. *)
Definition sampled (v0 v1 v2 fuel : R) : DashboardData :=
  let s := mju_norm3 (v0, v1, v2) * 3.6 in
  {| speed := s;
     rpm := spec_rpm s;
     fuel_level := Rmax (fuel - 0.001) 0 |}.

(** The needle angle of each gauge as a function of the stored value. *)
Definition speed_needle (v : R) : R :=
  Speedometer.speed_angle (Speedometer.clamped_speed v).
Definition rpm_needle (v : R) : R :=
  Tachometer.rpm_angle (Tachometer.clamped_rpm v).
Definition fuel_needle (v : R) : R :=
  FuelGauge.fuel_angle (FuelGauge.clamped_fuel v).

(** The affine map that sends [0] to [- PI / 2] and [top] to [PI / 2]. *)
Definition dial (top c : R) : R := - PI / 2 + PI * (c / top).

(** The colours of the segments drawn, in drawing order. *)
Definition zones (segs : list Segment) : list Zone := map seg_zone segs.

(** A threshold [t] is drawn like the values between it and [top]. *)
Definition joins_zone_above (arc : R -> list Segment) (t top : R) : Prop :=
  forall v, t < v < top -> zones (arc t) = zones (arc v).

(** A threshold [t] is drawn like the values between [bottom] and it. *)
Definition joins_zone_below (arc : R -> list Segment) (bottom t : R) : Prop :=
  forall v, bottom < v < t -> zones (arc t) = zones (arc v).

(** The host calls issued by one [render] of each widget. *)
Definition Speedometer_output (w : Speedometer) : list DrawCall :=
  match mjr_context_ (base w) with
  | None => []
  | Some _ => Speedometer.draw w
  end.

Definition Tachometer_output (w : Tachometer) : list DrawCall :=
  match mjr_context_ (base w) with
  | None => []
  | Some _ => Tachometer.draw w
  end.

Definition FuelGauge_output (w : FuelGauge) : list DrawCall :=
  match mjr_context_ (base w) with
  | None => []
  | Some _ => FuelGauge.draw w
  end.

(** The environment after issuing [out]. *)
Definition drawn (out : list DrawCall) (e : Env) : Env :=
  MkEnv (allocated e) (frame e ++ out).

(** [n] successive calls of a method on the same object. *)
Fixpoint repeatedly {T} (n : nat) (method : T -> M T) (w : T) : M T :=
  match n with
  | O => ret w
  | S k => w' <- method w ;; repeatedly k method w'
  end.

(** The widgets as [Render] constructs them for a frame rectangle. *)
Definition first_speedometer (con : option mjrContext) (rect : mjrRect)
  : Speedometer :=
  Speedometer_new (Dashboard.speedometer_x rect) (Dashboard.speedometer_y rect)
    Dashboard.speedometer_radius Dashboard.speedometer_radius con.

Definition first_tachometer (con : option mjrContext) (rect : mjrRect)
  : Tachometer :=
  Tachometer_new (Dashboard.tachometer_x rect) (Dashboard.tachometer_y rect)
    Dashboard.small_gauge_radius Dashboard.small_gauge_radius con.

Definition first_fuel_gauge (con : option mjrContext) (rect : mjrRect)
  : FuelGauge :=
  FuelGauge_new (Dashboard.fuel_gauge_x rect) (Dashboard.fuel_gauge_y rect)
    Dashboard.small_gauge_radius Dashboard.small_gauge_radius con.

(** No widget exists yet. *)
Definition unbuilt (d : Dashboard) : Prop :=
  speedometer_ d = None /\ tachometer_ d = None /\ fuel_gauge_ d = None.

(** The three widgets exist, with these identities and contents. *)
Definition built (d : Dashboard) (s : Obj Speedometer) (t : Obj Tachometer)
    (f : Obj FuelGauge) : Prop :=
  speedometer_ d = Some s /\ tachometer_ d = Some t /\ fuel_gauge_ d = Some f.

(** The three widgets exist with identities [id], [id + 1], [id + 2], hold
    the context [con] and the radii given at construction, and are placed
    as the layout of [rect] says; their stored values are left open. *)
Definition widgets_at (d : Dashboard) (id : nat) (con : option mjrContext)
    (rect : mjrRect) : Prop :=
  exists vs vt vf : R,
    built d
      (MkObj id (update vs (first_speedometer con rect)))
      (MkObj (S id) (update vt (first_tachometer con rect)))
      (MkObj (S (S id)) (update vf (first_fuel_gauge con rect))).

(** Either no widget exists, or all three do. *)
Definition consistent (d : Dashboard) : Prop :=
  unbuilt d \/ exists id con rect, widgets_at d id con rect.

Definition all_available (cs : list Call) : bool :=
  forallb call_ready cs.

(** One frame handed to [Render]. *)
Record Frame : Type := MkFrame
  { frame_model : mjModel;
    frame_data : mjData;
    frame_context : option mjrContext;
    frame_rect : mjrRect }.

Definition render_call (fr : Frame) : Call :=
  CallRender (frame_model fr) (frame_data fr) (frame_context fr)
    (frame_rect fr).

Definition frames_available (frs : list Frame) : bool :=
  forallb (fun fr => available (frame_data fr)) frs.

(** A host call is a rectangle of the given colour whose width and height
    are both [side]. *)
Definition tile_of (side : Z) (r g b a : R) (c : DrawCall) : Prop :=
  match c with
  | mjr_rectangle vp r' g' b' a' =>
      rect_width vp = side /\ rect_height vp = side
      /\ r' = r /\ g' = g /\ b' = b /\ a' = a
  | mjr_text _ _ _ _ _ _ _ _ => False
  end.

(** The segments lead from angle [a] to angle [b], each starting where the
    one before it ended. *)
Fixpoint chained (segs : list Segment) (a b : R) : Prop :=
  match segs with
  | [] => a = b
  | s :: rest => seg_from s = a /\ chained rest (seg_to s) b
  end.

(** A segment that does not run backward. *)
Definition forward (s : Segment) : Prop := seg_from s <= seg_to s.

(** Both angles of a segment lie between [lo] and [hi]. *)
Definition within (lo hi : R) (s : Segment) : Prop :=
  lo <= seg_from s <= hi /\ lo <= seg_to s <= hi.

(** A text call is made with the context [con]; rectangles take none. *)
Definition uses_context (con : option mjrContext) (c : DrawCall) : Prop :=
  match c with
  | mjr_text _ _ con' _ _ _ _ _ => con' = con
  | mjr_rectangle _ _ _ _ _ => True
  end.

(** Whether a call runs the sampler. *)
Definition samples (c : Call) : bool :=
  match c with
  | CallInitialize => false
  | CallUpdateData _ _ => true
  | CallRender _ _ _ _ => true
  end.

(** The number of sampler runs in a sequence of calls. *)
Definition samplings (cs : list Call) : nat :=
  List.length (filter samples cs).

(** The ranges of the three stored scalars. *)
Definition snapshot_in_range (d : DashboardData) : Prop :=
  0 <= speed d /\ 0 <= rpm d <= 8000 /\ 0 <= fuel_level d <= 100.

(** The arrays are long enough for [Residual]. *)
Definition residual_ready (data : mjGoalData) (residual : list R) : bool :=
  (2 <=? List.length (qpos data))%nat
  && (2 <=? List.length (mocap_pos data))%nat
  && (2 <=? List.length (ctrl data))%nat
  && (4 <=? List.length residual)%nat.

(** * Properties *)

(** ** Comparisons, clamping and truncation *)

Lemma Rltb_true (a b : R) : a < b -> Rltb a b = true.
Proof. intros H; unfold Rltb; destruct (Rlt_dec a b); [reflexivity | contradiction]. Qed.

Lemma Rltb_false (a b : R) : b <= a -> Rltb a b = false.
Proof. intros H; unfold Rltb; destruct (Rlt_dec a b); [lra | reflexivity]. Qed.

(** Case analysis on every comparison in sight, innermost first, closed by
    linear arithmetic. *)
Ltac plain t :=
  lazymatch t with
  | context [Rlt_dec _ _] => fail
  | context [Rle_dec _ _] => fail
  | _ => idtac
  end.

Ltac by_cases :=
  unfold Rltb, Rmin, Rmax in *;
  repeat match goal with
         | |- context [Rlt_dec ?a ?b] =>
             plain a; plain b; destruct (Rlt_dec a b)
         | |- context [Rle_dec ?a ?b] =>
             plain a; plain b; destruct (Rle_dec a b)
         end;
  try reflexivity; try lra.

Lemma spec_clamp_monotone (lo hi a b : R) :
  a <= b -> spec_clamp lo hi a <= spec_clamp lo hi b.
Proof. intros H; unfold spec_clamp; by_cases. Qed.

Lemma spec_clamp_range (lo hi v : R) :
  lo <= hi -> lo <= spec_clamp lo hi v <= hi.
Proof. intros H; unfold spec_clamp; by_cases. Qed.

Lemma clamped_speed_spec (s : R) :
  Speedometer.clamped_speed s = spec_clamp 0 240 s.
Proof.
  unfold Speedometer.clamped_speed, Speedometer.max_speed,
    Speedometer.min_speed, spec_clamp; by_cases.
Qed.

Lemma clamped_rpm_spec (s : R) :
  Tachometer.clamped_rpm s = spec_clamp 0 8000 s.
Proof.
  unfold Tachometer.clamped_rpm, Tachometer.max_rpm, Tachometer.min_rpm,
    spec_clamp; by_cases.
Qed.

Lemma clamped_fuel_spec (s : R) :
  FuelGauge.clamped_fuel s = spec_clamp 0 100 s.
Proof. unfold FuelGauge.clamped_fuel, spec_clamp; by_cases. Qed.

Lemma static_cast_int_IZR (z : Z) : static_cast_int (IZR z) = z.
Proof.
  unfold static_cast_int, Rltb.
  destruct (Rlt_dec (IZR z) 0).
  - rewrite <- opp_IZR.
    rewrite <- (Int_part_spec (IZR (- z)) (- z)%Z); [lia | lra].
  - symmetry; apply Int_part_spec; lra.
Qed.

Lemma static_cast_int_INR (n : nat) : static_cast_int (INR n) = Z.of_nat n.
Proof. rewrite INR_IZR_INZ; apply static_cast_int_IZR. Qed.

(** ** The telemetry sampler *)

Lemma available_qvel (data : mjData) :
  available data = true ->
  exists v0 v1 v2 rest, qvel data = v0 :: v1 :: v2 :: rest.
Proof.
  unfold available; intros H; apply Nat.leb_le in H.
  destruct (qvel data) as [|v0 [|v1 [|v2 rest]]]; simpl in H; try lia.
  now exists v0, v1, v2, rest.
Qed.

Lemma UpdateData_eq (model : mjModel) (data : mjData) (this : Dashboard)
    (e : Env) (v0 v1 v2 : R) (rest : list R) :
  qvel data = v0 :: v1 :: v2 :: rest ->
  Dashboard.UpdateData model data this e =
  Some ({| data_ := sampled v0 v1 v2 (fuel_level (data_ this));
           Dashboard_mjr_context_ := Dashboard_mjr_context_ this;
           speedometer_ :=
             if_present (update (speed (sampled v0 v1 v2 0)))
               (speedometer_ this);
           tachometer_ :=
             if_present (update (rpm (sampled v0 v1 v2 0)))
               (tachometer_ this);
           fuel_gauge_ :=
             if_present
               (update (fuel_level
                          (sampled v0 v1 v2 (fuel_level (data_ this)))))
               (fuel_gauge_ this) |}, e).
Proof.
  intros Hq; unfold Dashboard.UpdateData; rewrite Hq.
  unfold index, bind, ret; simpl.
  set (s := sqrt (v0 * v0 + v1 * v1 + v2 * v2) * 3.6).
  assert (Hr : (if Rltb 8000.0 (s * 100.0) then 8000.0
                else if Rltb (s * 100.0) 0.0 then 0.0 else s * 100.0)
               = spec_rpm s).
  { unfold spec_rpm, spec_clamp; by_cases. }
  assert (Hf : (if Rltb (fuel_level (data_ this) - 0.001) 0.0 then 0.0
                else fuel_level (data_ this) - 0.001)
               = Rmax (fuel_level (data_ this) - 0.001) 0).
  { by_cases. }
  rewrite Hr, Hf; reflexivity.
Qed.

Lemma UpdateData_unavailable (model : mjModel) (data : mjData)
    (this : Dashboard) (e : Env) :
  available data = false -> Dashboard.UpdateData model data this e = None.
Proof.
  unfold available; intros H; apply Nat.leb_gt in H.
  unfold Dashboard.UpdateData, index, bind, ret, fault.
  destruct (qvel data) as [|v0 [|v1 [|v2 rest]]]; simpl in *;
    try reflexivity; lia.
Qed.

(** ** Needle angles *)

Lemma speed_needle_dial (v : R) : speed_needle v = dial 240 (spec_clamp 0 240 v).
Proof.
  unfold speed_needle; rewrite clamped_speed_spec.
  unfold Speedometer.speed_angle, Speedometer.start_angle,
    Speedometer.end_angle, Speedometer.max_speed, M_PI, dial.
  lra.
Qed.

Lemma rpm_needle_dial (v : R) : rpm_needle v = dial 8000 (spec_clamp 0 8000 v).
Proof.
  unfold rpm_needle; rewrite clamped_rpm_spec.
  unfold Tachometer.rpm_angle, Tachometer.start_angle, Tachometer.end_angle,
    Tachometer.max_rpm, M_PI, dial.
  lra.
Qed.

Lemma fuel_needle_dial (v : R) : fuel_needle v = dial 100 (spec_clamp 0 100 v).
Proof.
  unfold fuel_needle; rewrite clamped_fuel_spec.
  unfold FuelGauge.fuel_angle, FuelGauge.start_angle, FuelGauge.end_angle,
    M_PI, dial.
  lra.
Qed.

Lemma dial_monotone (top a b : R) : 0 < top -> a <= b -> dial top a <= dial top b.
Proof.
  intros Ht Hab; unfold dial.
  apply Rplus_le_compat_l, Rmult_le_compat_l; [left; apply PI_RGT_0 |].
  apply Rmult_le_compat_r; [left; now apply Rinv_0_lt_compat | exact Hab].
Qed.

Lemma spec_clamp_lipschitz (lo hi a b : R) :
  lo <= hi -> Rabs (spec_clamp lo hi a - spec_clamp lo hi b) <= Rabs (a - b).
Proof.
  intros H; unfold spec_clamp, Rabs.
  destruct (Rcase_abs (a - b)); by_cases;
    match goal with |- context [Rcase_abs ?x] => destruct (Rcase_abs x) end;
    lra.
Qed.

Lemma dial_lipschitz (top lo hi a b : R) :
  0 < top -> lo <= hi ->
  Rabs (dial top (spec_clamp lo hi a) - dial top (spec_clamp lo hi b))
  <= PI / top * Rabs (a - b).
Proof.
  intros Ht Hlh; unfold dial.
  replace (- PI / 2 + PI * (spec_clamp lo hi a / top)
           - (- PI / 2 + PI * (spec_clamp lo hi b / top)))
    with (PI / top * (spec_clamp lo hi a - spec_clamp lo hi b))
    by (field; lra).
  assert (Hk : 0 < PI / top) by (apply Rdiv_lt_0_compat; [apply PI_RGT_0 | exact Ht]).
  rewrite Rabs_mult, (Rabs_pos_eq (PI / top)) by lra.
  apply Rmult_le_compat_l; [lra | now apply spec_clamp_lipschitz].
Qed.

Lemma lipschitz_continuity (f : R -> R) (k : R) :
  0 < k -> (forall a b, Rabs (f a - f b) <= k * Rabs (a - b)) -> continuity f.
Proof.
  intros Hk Hf x eps Heps.
  exists (eps / k); split; [now apply Rdiv_lt_0_compat |].
  intros y [_ Hd]; simpl in *; unfold Rdist in *.
  apply Rle_lt_trans with (k * Rabs (y - x)); [apply Hf |].
  apply Rmult_lt_reg_r with (/ k); [now apply Rinv_0_lt_compat |].
  replace (k * Rabs (y - x) * / k) with (Rabs (y - x)) by (field; lra).
  exact Hd.
Qed.

Lemma fuel_needle_ends :
  fuel_needle 0.0 = - M_PI / 2 /\ fuel_needle 100.0 = M_PI / 2.
Proof.
  rewrite !fuel_needle_dial; unfold dial, spec_clamp, M_PI; split; by_cases.
Qed.

(** C2, as stated, at the empty tank: the fuel needle is at [- M_PI / 2],
    not at [+ M_PI / 2]; and at the full tank it is at [+ M_PI / 2]. *)
Lemma fuel_needle_not_reversed :
  fuel_needle 0.0 = - M_PI / 2 /\ fuel_needle 0.0 <> M_PI / 2
  /\ fuel_needle 100.0 = M_PI / 2 /\ fuel_needle 100.0 <> - M_PI / 2.
Proof.
  pose proof PI_RGT_0 as Hpi.
  destruct fuel_needle_ends as [H0 H1].
  rewrite H0, H1; unfold M_PI; repeat split; lra.
Qed.

(** C2 (amended): on every gauge the needle angle is the affine image
    [- PI / 2 + PI * (c / max)] of the clamped value [c], hence monotonic
    non-decreasing and continuous in the stored value; it is [- PI / 2] at
    the minimum and [+ PI / 2] at the maximum on all three gauges, the fuel
    gauge included. *)
Theorem needle_angle_affine_in_clamped_value :
  forall v w : R,
    (speed_needle v = - PI / 2 + PI * (Speedometer.clamped_speed v / 240)
     /\ rpm_needle v = - PI / 2 + PI * (Tachometer.clamped_rpm v / 8000)
     /\ fuel_needle v = - PI / 2 + PI * (FuelGauge.clamped_fuel v / 100))
    /\ (v <= w ->
        speed_needle v <= speed_needle w
        /\ rpm_needle v <= rpm_needle w
        /\ fuel_needle v <= fuel_needle w)
    /\ (continuity speed_needle /\ continuity rpm_needle
        /\ continuity fuel_needle)
    /\ (speed_needle Speedometer.min_speed = - M_PI / 2
        /\ speed_needle Speedometer.max_speed = M_PI / 2)
    /\ (rpm_needle Tachometer.min_rpm = - M_PI / 2
        /\ rpm_needle Tachometer.max_rpm = M_PI / 2)
    /\ (fuel_needle 0.0 = - M_PI / 2 /\ fuel_needle 100.0 = M_PI / 2).
Proof.
  intros v w.
  pose proof PI_RGT_0 as Hpi.
  split; [| split; [| split; [| split; [| split]]]].
  - rewrite clamped_speed_spec, clamped_rpm_spec, clamped_fuel_spec.
    rewrite speed_needle_dial, rpm_needle_dial, fuel_needle_dial.
    unfold dial; repeat split; reflexivity.
  - intros Hvw.
    rewrite !speed_needle_dial, !rpm_needle_dial, !fuel_needle_dial.
    repeat split; apply dial_monotone; try lra;
      now apply spec_clamp_monotone.
  - repeat split.
    + apply lipschitz_continuity with (k := PI / 240).
      * apply Rdiv_lt_0_compat; lra.
      * intros a b; rewrite !speed_needle_dial; apply dial_lipschitz; lra.
    + apply lipschitz_continuity with (k := PI / 8000).
      * apply Rdiv_lt_0_compat; lra.
      * intros a b; rewrite !rpm_needle_dial; apply dial_lipschitz; lra.
    + apply lipschitz_continuity with (k := PI / 100).
      * apply Rdiv_lt_0_compat; lra.
      * intros a b; rewrite !fuel_needle_dial; apply dial_lipschitz; lra.
  - rewrite !speed_needle_dial.
    unfold dial, spec_clamp, M_PI, Speedometer.min_speed,
      Speedometer.max_speed; split; by_cases.
  - rewrite !rpm_needle_dial.
    unfold dial, spec_clamp, M_PI, Tachometer.min_rpm, Tachometer.max_rpm;
      split; by_cases.
  - exact fuel_needle_ends.
Qed.

Lemma needle_angle_affine_witness :
  (10 <= 20)
  /\ speed_needle 10 <= speed_needle 20
  /\ rpm_needle 10 <= rpm_needle 20
  /\ fuel_needle 10 <= fuel_needle 20.
Proof.
  split; [lra |].
  apply (proj1 (proj2 (needle_angle_affine_in_clamped_value 10 20))); lra.
Defined.

(** ** Zones of the status arc *)

Lemma Speedometer_arc_cases (c : R) :
  (c < 80 ->
   Speedometer.arc c =
   [MkSegment Green Speedometer.start_angle (Speedometer.speed_angle c)])
  /\ (80 <= c < 160 ->
      Speedometer.arc c =
      [MkSegment Green Speedometer.start_angle (Speedometer.speed_angle 80);
       MkSegment Yellow (Speedometer.speed_angle 80)
         (Speedometer.speed_angle c)])
  /\ (160 <= c ->
      Speedometer.arc c =
      [MkSegment Green Speedometer.start_angle (Speedometer.speed_angle 80);
       MkSegment Yellow (Speedometer.speed_angle 80)
         (Speedometer.speed_angle 160);
       MkSegment Red (Speedometer.speed_angle 160)
         (Speedometer.speed_angle c)]).
Proof.
  unfold Speedometer.arc, Speedometer.speed_angle.
  repeat split; intros H.
  - rewrite Rltb_true by lra; reflexivity.
  - rewrite Rltb_false, Rltb_true by lra.
    repeat f_equal; lra.
  - rewrite !Rltb_false by lra.
    repeat f_equal; lra.
Qed.

Lemma Tachometer_arc_cases (c : R) :
  (c < 4000 ->
   Tachometer.arc c =
   [MkSegment Green Tachometer.start_angle (Tachometer.rpm_angle c)])
  /\ (4000 <= c < 6000 ->
      Tachometer.arc c =
      [MkSegment Green Tachometer.start_angle (Tachometer.rpm_angle 4000);
       MkSegment Yellow (Tachometer.rpm_angle 4000) (Tachometer.rpm_angle c)])
  /\ (6000 <= c ->
      Tachometer.arc c =
      [MkSegment Green Tachometer.start_angle (Tachometer.rpm_angle 4000);
       MkSegment Yellow (Tachometer.rpm_angle 4000)
         (Tachometer.rpm_angle 6000);
       MkSegment Red (Tachometer.rpm_angle 6000) (Tachometer.rpm_angle c)]).
Proof.
  unfold Tachometer.arc, Tachometer.rpm_angle.
  repeat split; intros H.
  - rewrite Rltb_true by lra; reflexivity.
  - rewrite Rltb_false, Rltb_true by lra.
    repeat f_equal; lra.
  - rewrite !Rltb_false by lra.
    repeat f_equal; lra.
Qed.

Lemma FuelGauge_arc_cases (c : R) :
  (75 < c ->
   FuelGauge.arc c =
   [MkSegment Green (FuelGauge.fuel_angle c) FuelGauge.end_angle])
  /\ (25 < c <= 75 ->
      FuelGauge.arc c =
      [MkSegment Yellow (FuelGauge.fuel_angle c) (FuelGauge.fuel_angle 75);
       MkSegment Green (FuelGauge.fuel_angle 75) FuelGauge.end_angle])
  /\ (c <= 25 ->
      FuelGauge.arc c =
      [MkSegment Red (FuelGauge.fuel_angle c) (FuelGauge.fuel_angle 25);
       MkSegment Yellow (FuelGauge.fuel_angle 25) (FuelGauge.fuel_angle 75);
       MkSegment Green (FuelGauge.fuel_angle 75) FuelGauge.end_angle]).
Proof.
  unfold FuelGauge.arc, FuelGauge.fuel_angle.
  repeat split; intros H.
  - rewrite Rltb_true by lra; reflexivity.
  - rewrite Rltb_false, Rltb_true by lra.
    repeat f_equal; lra.
  - rewrite !Rltb_false by lra.
    repeat f_equal; lra.
Qed.

Lemma FuelGauge_zones_at (c : R) :
  (75 < c -> zones (FuelGauge.arc c) = [Green])
  /\ (25 < c <= 75 -> zones (FuelGauge.arc c) = [Yellow; Green])
  /\ (c <= 25 -> zones (FuelGauge.arc c) = [Red; Yellow; Green]).
Proof.
  destruct (FuelGauge_arc_cases c) as (H1 & H2 & H3).
  repeat split; intros H;
    [rewrite H1 | rewrite H2 | rewrite H3]; auto.
Qed.

Lemma Speedometer_zones_at (c : R) :
  (c < 80 -> zones (Speedometer.arc c) = [Green])
  /\ (80 <= c < 160 -> zones (Speedometer.arc c) = [Green; Yellow])
  /\ (160 <= c -> zones (Speedometer.arc c) = [Green; Yellow; Red]).
Proof.
  destruct (Speedometer_arc_cases c) as (H1 & H2 & H3).
  repeat split; intros H;
    [rewrite H1 | rewrite H2 | rewrite H3]; auto.
Qed.

Lemma Tachometer_zones_at (c : R) :
  (c < 4000 -> zones (Tachometer.arc c) = [Green])
  /\ (4000 <= c < 6000 -> zones (Tachometer.arc c) = [Green; Yellow])
  /\ (6000 <= c -> zones (Tachometer.arc c) = [Green; Yellow; Red]).
Proof.
  destruct (Tachometer_arc_cases c) as (H1 & H2 & H3).
  repeat split; intros H;
    [rewrite H1 | rewrite H2 | rewrite H3]; auto.
Qed.

(** C3, as stated, on the fuel gauge: a level of exactly 75.0 is drawn as
    the zone below it (a yellow segment and the green one), unlike the
    levels of the zone above 75, for which the green segment alone is
    drawn. *)
Lemma fuel_boundary_in_lower_zone :
  zones (FuelGauge.arc (FuelGauge.clamped_fuel 75.0)) = [Yellow; Green]
  /\ zones (FuelGauge.arc (FuelGauge.clamped_fuel 80.0)) = [Green]
  /\ ~ joins_zone_above FuelGauge.arc 75 100.
Proof.
  rewrite !clamped_fuel_spec.
  replace (spec_clamp 0 100 75.0) with 75 by (unfold spec_clamp; by_cases).
  replace (spec_clamp 0 100 80.0) with 80 by (unfold spec_clamp; by_cases).
  assert (H75 : zones (FuelGauge.arc 75) = [Yellow; Green])
    by (apply FuelGauge_zones_at; lra).
  assert (H80 : zones (FuelGauge.arc 80) = [Green])
    by (apply FuelGauge_zones_at; lra).
  repeat split; auto.
  intros H; specialize (H 80); rewrite H75, H80 in H.
  assert (Hv : 75 < 80 < 100) by lra.
  specialize (H Hv); discriminate.
Qed.

(** C3 (amended): on the speedometer and the tachometer the tests are
    [clamped < threshold], so a value exactly on a threshold (80, 160; 4000,
    6000) is drawn as the zone above it, whose segment starts at the
    threshold angle and ends at the needle; on the fuel gauge the tests are
    [clamped > 75] and [clamped > 25], so a level exactly on a threshold is
    drawn as the zone below it (yellow at 75, red at 25), whose segment
    runs from the needle to the threshold angle.  A value beyond the range
    is clamped to the nearer end. *)
Theorem status_arc_zone_boundaries :
  forall v : R,
    (* speedometer *)
    (let c := Speedometer.clamped_speed v in
     (c < 80 ->
      Speedometer.arc c =
      [MkSegment Green Speedometer.start_angle (Speedometer.speed_angle c)])
     /\ (80 <= c < 160 ->
         Speedometer.arc c =
         [MkSegment Green Speedometer.start_angle
            (Speedometer.speed_angle 80);
          MkSegment Yellow (Speedometer.speed_angle 80)
            (Speedometer.speed_angle c)])
     /\ (160 <= c ->
         Speedometer.arc c =
         [MkSegment Green Speedometer.start_angle
            (Speedometer.speed_angle 80);
          MkSegment Yellow (Speedometer.speed_angle 80)
            (Speedometer.speed_angle 160);
          MkSegment Red (Speedometer.speed_angle 160)
            (Speedometer.speed_angle c)]))
    /\ joins_zone_above Speedometer.arc 80 160
    /\ joins_zone_above Speedometer.arc 160 240
    (* tachometer *)
    /\ (let c := Tachometer.clamped_rpm v in
        (c < 4000 ->
         Tachometer.arc c =
         [MkSegment Green Tachometer.start_angle (Tachometer.rpm_angle c)])
        /\ (4000 <= c < 6000 ->
            Tachometer.arc c =
            [MkSegment Green Tachometer.start_angle
               (Tachometer.rpm_angle 4000);
             MkSegment Yellow (Tachometer.rpm_angle 4000)
               (Tachometer.rpm_angle c)])
        /\ (6000 <= c ->
            Tachometer.arc c =
            [MkSegment Green Tachometer.start_angle
               (Tachometer.rpm_angle 4000);
             MkSegment Yellow (Tachometer.rpm_angle 4000)
               (Tachometer.rpm_angle 6000);
             MkSegment Red (Tachometer.rpm_angle 6000)
               (Tachometer.rpm_angle c)]))
    /\ joins_zone_above Tachometer.arc 4000 6000
    /\ joins_zone_above Tachometer.arc 6000 8000
    (* fuel gauge *)
    /\ (let c := FuelGauge.clamped_fuel v in
        (75 < c ->
         FuelGauge.arc c =
         [MkSegment Green (FuelGauge.fuel_angle c) FuelGauge.end_angle])
        /\ (25 < c <= 75 ->
            FuelGauge.arc c =
            [MkSegment Yellow (FuelGauge.fuel_angle c)
               (FuelGauge.fuel_angle 75);
             MkSegment Green (FuelGauge.fuel_angle 75) FuelGauge.end_angle])
        /\ (c <= 25 ->
            FuelGauge.arc c =
            [MkSegment Red (FuelGauge.fuel_angle c) (FuelGauge.fuel_angle 25);
             MkSegment Yellow (FuelGauge.fuel_angle 25)
               (FuelGauge.fuel_angle 75);
             MkSegment Green (FuelGauge.fuel_angle 75)
               FuelGauge.end_angle]))
    /\ joins_zone_below FuelGauge.arc 25 75
    /\ joins_zone_below FuelGauge.arc 0 25
    (* clamping *)
    /\ (240 < v -> Speedometer.clamped_speed v = 240)
    /\ (v < 0 -> Speedometer.clamped_speed v = 0)
    /\ (8000 < v -> Tachometer.clamped_rpm v = 8000)
    /\ (v < 0 -> Tachometer.clamped_rpm v = 0)
    /\ (100 < v -> FuelGauge.clamped_fuel v = 100)
    /\ (v < 0 -> FuelGauge.clamped_fuel v = 0).
Proof.
  intros v.
  split; [exact (Speedometer_arc_cases _) |].
  split.
  { intros w Hw.
    rewrite (proj1 (proj2 (Speedometer_zones_at 80))) by lra.
    rewrite (proj1 (proj2 (Speedometer_zones_at w))) by lra; reflexivity. }
  split.
  { intros w Hw.
    rewrite (proj2 (proj2 (Speedometer_zones_at 160))) by lra.
    rewrite (proj2 (proj2 (Speedometer_zones_at w))) by lra; reflexivity. }
  split; [exact (Tachometer_arc_cases _) |].
  split.
  { intros w Hw.
    rewrite (proj1 (proj2 (Tachometer_zones_at 4000))) by lra.
    rewrite (proj1 (proj2 (Tachometer_zones_at w))) by lra; reflexivity. }
  split.
  { intros w Hw.
    rewrite (proj2 (proj2 (Tachometer_zones_at 6000))) by lra.
    rewrite (proj2 (proj2 (Tachometer_zones_at w))) by lra; reflexivity. }
  split; [exact (FuelGauge_arc_cases _) |].
  split.
  { intros w Hw.
    rewrite (proj1 (proj2 (FuelGauge_zones_at 75))) by lra.
    rewrite (proj1 (proj2 (FuelGauge_zones_at w))) by lra; reflexivity. }
  split.
  { intros w Hw.
    rewrite (proj2 (proj2 (FuelGauge_zones_at 25))) by lra.
    rewrite (proj2 (proj2 (FuelGauge_zones_at w))) by lra; reflexivity. }
  rewrite clamped_speed_spec, clamped_rpm_spec, clamped_fuel_spec.
  unfold spec_clamp; repeat split; intros H; by_cases.
Qed.

Lemma status_arc_zone_boundaries_witness :
  zones (Speedometer.arc 80) = zones (Speedometer.arc 100)
  /\ zones (FuelGauge.arc 75) = zones (FuelGauge.arc 50).
Proof.
  split.
  - apply (proj1 (proj2 (status_arc_zone_boundaries 0))); lra.
  - apply (proj1 (proj2 (proj2 (proj2 (proj2 (proj2 (proj2 (proj2
             (status_arc_zone_boundaries 0))))))))); lra.
Defined.

(** ** What one call of [render] does *)

Lemma drawn_nil (e : Env) : drawn [] e = e.
Proof. destruct e; unfold drawn; simpl; now rewrite app_nil_r. Qed.

Lemma drawn_drawn (a b : list DrawCall) (e : Env) :
  drawn b (drawn a e) = drawn (a ++ b) e.
Proof. unfold drawn; simpl; now rewrite app_assoc. Qed.

Lemma Speedometer_render_eq (w : Speedometer) (e : Env) :
  render w e = Some (w, drawn (Speedometer_output w) e).
Proof.
  unfold Speedometer_output; simpl; unfold Speedometer.render.
  destruct (mjr_context_ (Speedometer_base w)).
  - reflexivity.
  - now rewrite drawn_nil.
Qed.

Lemma Tachometer_render_eq (w : Tachometer) (e : Env) :
  render w e = Some (w, drawn (Tachometer_output w) e).
Proof.
  unfold Tachometer_output; simpl; unfold Tachometer.render.
  destruct (mjr_context_ (Tachometer_base w)).
  - reflexivity.
  - now rewrite drawn_nil.
Qed.

Lemma FuelGauge_render_eq (w : FuelGauge) (e : Env) :
  render w e = Some (w, drawn (FuelGauge_output w) e).
Proof.
  unfold FuelGauge_output; simpl; unfold FuelGauge.render.
  destruct (mjr_context_ (FuelGauge_base w)).
  - reflexivity.
  - now rewrite drawn_nil.
Qed.

Lemma repeatedly_pure {T} (method : T -> M T) (out : T -> list DrawCall)
    (w : T) :
  (forall e, method w e = Some (w, drawn (out w) e)) ->
  forall n e,
    repeatedly n method w e
    = Some (w, drawn (List.concat (repeat (out w) n)) e).
Proof.
  intros Hm n; induction n as [|k IH]; intros e; simpl.
  - unfold ret; now rewrite drawn_nil.
  - unfold bind; rewrite Hm, IH, drawn_drawn; reflexivity.
Qed.

(** C7: [render] leaves the widget as it was and issues a sequence of host
    calls that is a function of the widget alone; so any number of renders
    in a row, with no update in between, returns the same widget and draws
    that same sequence each time. *)
Theorem render_idempotent_read_only :
  forall (s : Speedometer) (t : Tachometer) (f : FuelGauge) (n : nat)
         (e : Env),
    (render s e = Some (s, drawn (Speedometer_output s) e)
     /\ repeatedly n render s e
        = Some (s, drawn (List.concat (repeat (Speedometer_output s) n)) e))
    /\ (render t e = Some (t, drawn (Tachometer_output t) e)
        /\ repeatedly n render t e
           = Some (t, drawn (List.concat (repeat (Tachometer_output t) n)) e))
    /\ (render f e = Some (f, drawn (FuelGauge_output f) e)
        /\ repeatedly n render f e
           = Some (f, drawn (List.concat (repeat (FuelGauge_output f) n)) e)).
Proof.
  intros s t f n e; repeat split.
  - apply Speedometer_render_eq.
  - apply repeatedly_pure; intros e'; apply Speedometer_render_eq.
  - apply Tachometer_render_eq.
  - apply repeatedly_pure; intros e'; apply Tachometer_render_eq.
  - apply FuelGauge_render_eq.
  - apply repeatedly_pure; intros e'; apply FuelGauge_render_eq.
Qed.

(** ** What one call of [Dashboard::Render] does *)

Lemma Render_first (model : mjModel) (data : mjData)
    (con : option mjrContext) (rect : mjrRect) (this : Dashboard) (e : Env)
    (v0 v1 v2 : R) (rest : list R) :
  qvel data = v0 :: v1 :: v2 :: rest ->
  unbuilt this ->
  let s := first_speedometer con rect in
  let t := first_tachometer con rect in
  let f := first_fuel_gauge con rect in
  Dashboard.Render model data con rect this e =
  Some ({| data_ := sampled v0 v1 v2 (fuel_level (data_ this));
           Dashboard_mjr_context_ := con;
           speedometer_ := Some (MkObj (allocated e) s);
           tachometer_ := Some (MkObj (S (allocated e)) t);
           fuel_gauge_ := Some (MkObj (S (S (allocated e))) f) |},
        MkEnv (S (S (S (allocated e))))
          (frame e ++ Speedometer_output s ++ Tachometer_output t
           ++ FuelGauge_output f)).
Proof.
  intros Hq (Hs & Ht & Hf) s t f.
  unfold Dashboard.Render, bind.
  rewrite (UpdateData_eq model data this e v0 v1 v2 rest Hq).
  rewrite Hs, Ht, Hf; simpl.
  unfold invoke, bind, deref, ret; simpl.
  fold (first_speedometer con rect) (first_tachometer con rect)
    (first_fuel_gauge con rect).
  fold s t f.
  change (Speedometer.render s) with (render s).
  rewrite Speedometer_render_eq.
  change (Tachometer.render t) with (render t).
  rewrite Tachometer_render_eq.
  change (FuelGauge.render f) with (render f).
  rewrite FuelGauge_render_eq.
  unfold drawn; simpl; rewrite <- !app_assoc; reflexivity.
Qed.

Lemma Render_later (model : mjModel) (data : mjData)
    (con : option mjrContext) (rect : mjrRect) (this : Dashboard) (e : Env)
    (v0 v1 v2 : R) (rest : list R)
    (s : Obj Speedometer) (t : Obj Tachometer) (f : Obj FuelGauge) :
  qvel data = v0 :: v1 :: v2 :: rest ->
  built this s t f ->
  let snap := sampled v0 v1 v2 (fuel_level (data_ this)) in
  let s' := UpdatePosition (Dashboard.speedometer_x rect)
              (Dashboard.speedometer_y rect)
              (update (speed snap) (obj_val s)) in
  let t' := UpdatePosition (Dashboard.tachometer_x rect)
              (Dashboard.tachometer_y rect)
              (update (rpm snap) (obj_val t)) in
  let f' := UpdatePosition (Dashboard.fuel_gauge_x rect)
              (Dashboard.fuel_gauge_y rect)
              (update (fuel_level snap) (obj_val f)) in
  Dashboard.Render model data con rect this e =
  Some ({| data_ := snap;
           Dashboard_mjr_context_ := con;
           speedometer_ := Some (MkObj (obj_id s) s');
           tachometer_ := Some (MkObj (obj_id t) t');
           fuel_gauge_ := Some (MkObj (obj_id f) f') |},
        drawn (Speedometer_output s' ++ Tachometer_output t'
               ++ FuelGauge_output f') e).
Proof.
  intros Hq (Hs & Ht & Hf) snap s' t' f'.
  unfold Dashboard.Render, bind.
  rewrite (UpdateData_eq model data this e v0 v1 v2 rest Hq).
  rewrite Hs, Ht, Hf; simpl.
  unfold invoke, bind, deref, ret; simpl.
  change (Speedometer.render ?w) with (render w).
  change (Tachometer.render ?w) with (render w).
  change (FuelGauge.render ?w) with (render w).
  rewrite Speedometer_render_eq, Tachometer_render_eq, FuelGauge_render_eq.
  rewrite !drawn_drawn.
  reflexivity.
Qed.

(** ** The sampler: availability, rpm and fuel *)

Lemma sampled_fuel_decreases (v0 v1 v2 fuel : R) :
  0 <= fuel ->
  0 <= fuel_level (sampled v0 v1 v2 fuel) <= fuel
  /\ (0 < fuel -> fuel_level (sampled v0 v1 v2 fuel) < fuel).
Proof. intros H; unfold sampled; simpl; by_cases. Qed.

Lemma ModifyScene_returns_early
    (mj_name2id : mjModel -> mjtObj -> string -> Z)
    (SensorByName : mjModel -> mjData -> string -> option (R * R * R))
    (model : mjModel) (data : mjData) (scene : mjvScene) :
  (mj_name2id model mjOBJ_BODY "car"%string < 0)%Z
  \/ SensorByName model data "car_velocity"%string = None ->
  ModifyScene mj_name2id SensorByName model data scene = Some scene.
Proof.
  intros [H | H]; unfold ModifyScene.
  - apply Z.ltb_lt in H; now rewrite H.
  - rewrite H; now destruct (_ <? 0)%Z.
Qed.

(** C1, as stated, at a state with no velocity coordinates: the sampler
    does not return with the snapshot as it was; it has no result. *)
Lemma UpdateData_does_not_skip :
  available (MkData [] []) = false
  /\ Dashboard.UpdateData (Model 0) (MkData [] []) Dashboard_new (Env0 0)
     = None
  /\ Dashboard.UpdateData (Model 0) (MkData [] []) Dashboard_new (Env0 0)
     <> Some (Dashboard_new, Env0 0).
Proof.
  split; [reflexivity |].
  rewrite UpdateData_unavailable by reflexivity.
  split; [reflexivity | discriminate].
Qed.

(** C1 (amended): [UpdateData] makes no availability check and has no early
    return: it reads the first three generalized velocities directly.  On a
    state that lacks one of them the read is out of range and the call has
    no result: it never returns with the snapshot left as it was.  Whenever
    it returns, the state had the three coordinates and the snapshot is a
    fresh one (speed and rpm from the velocity, fuel one decrement lower),
    which differs from the previous one as long as fuel is left.  The
    check-and-return pattern is in the goal task only: [ModifyScene]
    returns with the scene as it was when the car body or the
    [car_velocity] sensor is missing. *)
Theorem UpdateData_always_samples :
  forall (model : mjModel) (data : mjData) (this : Dashboard) (e : Env),
    (available data = false ->
     Dashboard.UpdateData model data this e = None)
    /\ (forall this' e',
           Dashboard.UpdateData model data this e = Some (this', e') ->
           available data = true
           /\ e' = e
           /\ exists v0 v1 v2 rest,
                qvel data = v0 :: v1 :: v2 :: rest
                /\ speed (data_ this') = mju_norm3 (v0, v1, v2) * 3.6
                /\ data_ this' = sampled v0 v1 v2 (fuel_level (data_ this)))
    /\ (available data = true ->
        exists v0 v1 v2 rest this',
          qvel data = v0 :: v1 :: v2 :: rest
          /\ Dashboard.UpdateData model data this e = Some (this', e)
          /\ data_ this' = sampled v0 v1 v2 (fuel_level (data_ this))
          /\ (0 < fuel_level (data_ this) -> data_ this' <> data_ this))
    /\ (forall mj_name2id SensorByName scene,
           (mj_name2id model mjOBJ_BODY "car"%string < 0)%Z
           \/ SensorByName model data "car_velocity"%string = None ->
           ModifyScene mj_name2id SensorByName model data scene = Some scene).
Proof.
  intros model data this e.
  split; [apply UpdateData_unavailable |].
  split.
  { intros this' e' Hr.
    destruct (available data) eqn:Ha;
      [| rewrite (UpdateData_unavailable model data this e Ha) in Hr;
         discriminate].
    destruct (available_qvel data Ha) as (v0 & v1 & v2 & rest & Hq).
    rewrite (UpdateData_eq _ _ _ _ _ _ _ _ Hq) in Hr.
    injection Hr as <- <-.
    split; [reflexivity |].
    split; [reflexivity |].
    exists v0, v1, v2, rest; repeat split; exact Hq. }
  split.
  - intros Ha.
    destruct (available_qvel data Ha) as (v0 & v1 & v2 & rest & Hq).
    exists v0, v1, v2, rest; eexists; split; [exact Hq |].
    split; [apply (UpdateData_eq _ _ _ _ _ _ _ _ Hq) |].
    split; [reflexivity |].
    simpl; intros Hf Heq.
    assert (H : fuel_level (sampled v0 v1 v2 (fuel_level (data_ this)))
                = fuel_level (data_ this)) by (now rewrite Heq).
    destruct (sampled_fuel_decreases v0 v1 v2 (fuel_level (data_ this)))
      as [_ Hlt]; [lra |].
    specialize (Hlt Hf); lra.
  - intros; now apply ModifyScene_returns_early.
Qed.

Lemma UpdateData_always_samples_witness :
  (available (MkData [1; 2] []) = false
   /\ Dashboard.UpdateData (Model 0) (MkData [1; 2] []) Dashboard_new
        (Env0 0) = None)
  /\ available (MkData [3; 4; 0] []) = true
  /\ (exists v0 v1 v2 rest this',
         qvel (MkData [3; 4; 0] []) = v0 :: v1 :: v2 :: rest
         /\ Dashboard.UpdateData (Model 0) (MkData [3; 4; 0] []) Dashboard_new
              (Env0 0) = Some (this', Env0 0)
         /\ data_ this' = sampled v0 v1 v2 (fuel_level (data_ Dashboard_new))
         /\ (0 < fuel_level (data_ Dashboard_new) ->
             data_ this' <> data_ Dashboard_new))
  /\ ModifyScene (fun _ _ _ => (-1)%Z) (fun _ _ _ => None) (Model 0)
       (MkData [3; 4; 0] []) (MkScene 0 10 []) = Some (MkScene 0 10 []).
Proof.
  split.
  { split; [reflexivity |].
    apply (proj1 (UpdateData_always_samples (Model 0) (MkData [1; 2] [])
                    Dashboard_new (Env0 0))); reflexivity. }
  split; [reflexivity |].
  destruct (UpdateData_always_samples (Model 0) (MkData [3; 4; 0] [])
              Dashboard_new (Env0 0)) as (_ & _ & Hs & Hm).
  split; [exact (Hs eq_refl) |].
  apply Hm; left; reflexivity.
Defined.

(** C5: for every velocity read, the sampler stores the speed
    [3.6 |v|] and the rpm [min(max(100 speed, 0), 8000)]: the rpm is the
    stored speed times 100 clamped to [[0, 8000]], hence within that range
    and monotonic non-decreasing in the speed; and the value each gauge
    displays is [min(max(input, min), max)] over its range. *)
Theorem sampler_rpm_clamped_monotone :
  forall (model1 model2 : mjModel) (data1 data2 : mjData)
         (this1 this2 : Dashboard) (e1 e2 : Env) (s : R),
    available data1 = true ->
    available data2 = true ->
    exists d1 d2 a0 a1 a2 ra b0 b1 b2 rb,
      qvel data1 = a0 :: a1 :: a2 :: ra
      /\ qvel data2 = b0 :: b1 :: b2 :: rb
      /\ Dashboard.UpdateData model1 data1 this1 e1 = Some (d1, e1)
      /\ Dashboard.UpdateData model2 data2 this2 e2 = Some (d2, e2)
      /\ speed (data_ d1) = mju_norm3 (a0, a1, a2) * 3.6
      /\ speed (data_ d2) = mju_norm3 (b0, b1, b2) * 3.6
      /\ rpm (data_ d1) = Rmin (Rmax (speed (data_ d1) * 100) 0) 8000
      /\ rpm (data_ d2) = Rmin (Rmax (speed (data_ d2) * 100) 0) 8000
      /\ rpm (data_ d1)
         = Rmin (Rmax (mju_norm3 (a0, a1, a2) * 3.6 * 100) 0) 8000
      /\ 0 <= rpm (data_ d1) <= 8000
      /\ (speed (data_ d1) <= speed (data_ d2) ->
          rpm (data_ d1) <= rpm (data_ d2))
      /\ (mju_norm3 (a0, a1, a2) <= mju_norm3 (b0, b1, b2) ->
          rpm (data_ d1) <= rpm (data_ d2))
      /\ Speedometer.clamped_speed s = Rmin (Rmax s 0) 240
      /\ Tachometer.clamped_rpm s = Rmin (Rmax s 0) 8000
      /\ FuelGauge.clamped_fuel s = Rmin (Rmax s 0) 100.
Proof.
  intros model1 model2 data1 data2 this1 this2 e1 e2 s Ha1 Ha2.
  destruct (available_qvel data1 Ha1) as (a0 & a1 & a2 & ra & Hq1).
  destruct (available_qvel data2 Ha2) as (b0 & b1 & b2 & rb & Hq2).
  do 2 eexists; exists a0, a1, a2, ra, b0, b1, b2, rb.
  split; [exact Hq1 |].
  split; [exact Hq2 |].
  split; [apply (UpdateData_eq _ _ _ _ _ _ _ _ Hq1) |].
  split; [apply (UpdateData_eq _ _ _ _ _ _ _ _ Hq2) |].
  cbn [data_ sampled speed rpm].
  do 5 (split; [reflexivity |]).
  split; [apply spec_clamp_range; lra |].
  split.
  { intros H; unfold spec_rpm; apply spec_clamp_monotone; lra. }
  split.
  { intros H; unfold spec_rpm; apply spec_clamp_monotone; lra. }
  split; [apply clamped_speed_spec |].
  split; [apply clamped_rpm_spec | apply clamped_fuel_spec].
Qed.

Lemma sampler_rpm_clamped_monotone_witness :
  available (MkData [3; 4; 0] []) = true
  /\ available (MkData [6; 8; 0] []) = true
  /\ exists d1 d2 a0 a1 a2 ra b0 b1 b2 rb,
      qvel (MkData [3; 4; 0] []) = a0 :: a1 :: a2 :: ra
      /\ qvel (MkData [6; 8; 0] []) = b0 :: b1 :: b2 :: rb
      /\ Dashboard.UpdateData (Model 0) (MkData [3; 4; 0] []) Dashboard_new
           (Env0 0) = Some (d1, Env0 0)
      /\ Dashboard.UpdateData (Model 0) (MkData [6; 8; 0] []) Dashboard_new
           (Env0 0) = Some (d2, Env0 0)
      /\ speed (data_ d1) = mju_norm3 (a0, a1, a2) * 3.6
      /\ speed (data_ d2) = mju_norm3 (b0, b1, b2) * 3.6
      /\ rpm (data_ d1) = Rmin (Rmax (speed (data_ d1) * 100) 0) 8000
      /\ rpm (data_ d2) = Rmin (Rmax (speed (data_ d2) * 100) 0) 8000
      /\ rpm (data_ d1)
         = Rmin (Rmax (mju_norm3 (a0, a1, a2) * 3.6 * 100) 0) 8000
      /\ 0 <= rpm (data_ d1) <= 8000
      /\ (speed (data_ d1) <= speed (data_ d2) ->
          rpm (data_ d1) <= rpm (data_ d2))
      /\ (mju_norm3 (a0, a1, a2) <= mju_norm3 (b0, b1, b2) ->
          rpm (data_ d1) <= rpm (data_ d2))
      /\ Speedometer.clamped_speed 300 = Rmin (Rmax 300 0) 240
      /\ Tachometer.clamped_rpm 300 = Rmin (Rmax 300 0) 8000
      /\ FuelGauge.clamped_fuel 300 = Rmin (Rmax 300 0) 100.
Proof.
  split; [reflexivity |].
  split; [reflexivity |].
  apply (sampler_rpm_clamped_monotone (Model 0) (Model 0)
           (MkData [3; 4; 0] []) (MkData [6; 8; 0] [])
           Dashboard_new Dashboard_new (Env0 0) (Env0 0) 300);
    reflexivity.
Defined.

(** ** Sequences of calls: the widgets of a controller *)

Lemma unbuilt_new : unbuilt Dashboard_new.
Proof. repeat split. Qed.

Lemma UpdateData_unbuilt (model : mjModel) (data : mjData) (this : Dashboard)
    (e : Env) :
  available data = true -> unbuilt this ->
  exists this',
    Dashboard.UpdateData model data this e = Some (this', e)
    /\ unbuilt this'
    /\ fuel_level (data_ this') = Rmax (fuel_level (data_ this) - 0.001) 0.
Proof.
  intros Ha (Hs & Ht & Hf).
  destruct (available_qvel data Ha) as (v0 & v1 & v2 & rest & Hq).
  eexists; split; [apply (UpdateData_eq _ _ _ _ _ _ _ _ Hq) |].
  rewrite Hs, Ht, Hf; repeat split.
Qed.

Lemma UpdateData_widgets_at (model : mjModel) (data : mjData)
    (this : Dashboard) (e : Env) (id : nat) (con : option mjrContext)
    (rect : mjrRect) :
  available data = true -> widgets_at this id con rect ->
  exists this',
    Dashboard.UpdateData model data this e = Some (this', e)
    /\ widgets_at this' id con rect
    /\ fuel_level (data_ this') = Rmax (fuel_level (data_ this) - 0.001) 0.
Proof.
  intros Ha (vs & vt & vf & Hs & Ht & Hf).
  destruct (available_qvel data Ha) as (v0 & v1 & v2 & rest & Hq).
  eexists; split; [apply (UpdateData_eq _ _ _ _ _ _ _ _ Hq) |].
  rewrite Hs, Ht, Hf; split; [| reflexivity].
  do 3 eexists; repeat split.
Qed.

Lemma Render_unbuilt (model : mjModel) (data : mjData)
    (con : option mjrContext) (rect : mjrRect) (this : Dashboard) (e : Env) :
  available data = true -> unbuilt this ->
  exists this' e',
    Dashboard.Render model data con rect this e = Some (this', e')
    /\ widgets_at this' (allocated e) con rect
    /\ allocated e' = (3 + allocated e)%nat
    /\ fuel_level (data_ this') = Rmax (fuel_level (data_ this) - 0.001) 0.
Proof.
  intros Ha Hu.
  destruct (available_qvel data Ha) as (v0 & v1 & v2 & rest & Hq).
  do 2 eexists; split; [apply (Render_first _ _ _ _ _ _ _ _ _ _ Hq Hu) |].
  split; [| split; reflexivity].
  exists 0.0, 0.0, 0.0; repeat split.
Qed.

Lemma Render_widgets_at (model : mjModel) (data : mjData)
    (con : option mjrContext) (rect : mjrRect) (this : Dashboard) (e : Env)
    (id : nat) (con0 : option mjrContext) (rect0 : mjrRect) :
  available data = true -> widgets_at this id con0 rect0 ->
  exists this' e',
    Dashboard.Render model data con rect this e = Some (this', e')
    /\ widgets_at this' id con0 rect
    /\ allocated e' = allocated e
    /\ fuel_level (data_ this') = Rmax (fuel_level (data_ this) - 0.001) 0.
Proof.
  intros Ha (vs & vt & vf & Hb).
  destruct (available_qvel data Ha) as (v0 & v1 & v2 & rest & Hq).
  do 2 eexists; split; [apply (Render_later _ _ _ _ _ _ _ _ _ _ _ _ _ Hq Hb) |].
  split; [| split; reflexivity].
  do 3 eexists; repeat split.
Qed.

Lemma call_consistent (c : Call) (this : Dashboard) (e : Env) :
  call_ready c = true -> consistent this ->
  exists this' e',
    call c this e = Some (this', e')
    /\ consistent this'
    /\ fuel_level (data_ this') = fuel_after c (fuel_level (data_ this)).
Proof.
  intros Ha [Hu | (id & con0 & rect0 & Hw)]; destruct c; simpl in *.
  - exists this, e; repeat split; now left.
  - destruct (UpdateData_unbuilt model data this e Ha Hu) as (d & H & Hu' & Hf).
    exists d, e; repeat split; auto; now left.
  - destruct (Render_unbuilt model data mjr_context rect this e Ha Hu)
      as (d & e' & H & Hw & _ & Hf).
    exists d, e'; repeat split; auto; right; eauto.
  - exists this, e; repeat split; right; eauto.
  - destruct (UpdateData_widgets_at model data this e _ _ _ Ha Hw)
      as (d & H & Hw' & Hf).
    exists d, e; repeat split; auto; right; eauto.
  - destruct (Render_widgets_at model data mjr_context rect this e _ _ _ Ha Hw)
      as (d & e' & H & Hw' & _ & Hf).
    exists d, e'; repeat split; auto; right; eauto.
Qed.

Lemma calls_app (cs1 cs2 : list Call) (this : Dashboard) (e : Env) :
  calls (cs1 ++ cs2) this e =
  match calls cs1 this e with
  | Some (d, e') => calls cs2 d e'
  | None => None
  end.
Proof.
  revert this e; induction cs1 as [|c cs1 IH]; intros this e; simpl.
  - reflexivity.
  - unfold bind; destruct (call c this e) as [[d e']|]; [apply IH | reflexivity].
Qed.

Lemma calls_fuel (cs : list Call) (this : Dashboard) (e : Env) :
  all_available cs = true -> consistent this ->
  0 <= fuel_level (data_ this) ->
  exists this' e',
    calls cs this e = Some (this', e')
    /\ consistent this'
    /\ 0 <= fuel_level (data_ this') <= fuel_level (data_ this).
Proof.
  revert this e; induction cs as [|c cs IH]; intros this e Ha Hc Hf; simpl.
  - exists this, e; repeat split; auto; lra.
  - simpl in Ha; apply andb_true_iff in Ha; destruct Ha as [Hac Hacs].
    destruct (call_consistent c this e Hac Hc) as (d & e1 & Hcall & Hc1 & Hfuel).
    assert (Hd : 0 <= fuel_level (data_ d) <= fuel_level (data_ this))
      by (rewrite Hfuel; destruct c; simpl; by_cases).
    destruct (IH d e1 Hacs Hc1 (proj1 Hd)) as (d' & e' & Hcalls & Hc' & Hf').
    exists d', e'; unfold bind; rewrite Hcall; repeat split; auto; lra.
Qed.

(** C4: along every sequence of calls on a controller, each sampler call
    (direct, or made by [Render]) stores the previous fuel level less
    0.001, or 0 if that would be negative, and the only other operation,
    [Initialize], leaves it; so the stored level never rises from one point
    of the sequence to a later one, and is never below 0. *)
Theorem fuel_level_non_increasing :
  forall (before after : list Call) (c : Call) (n : nat),
    all_available (before ++ c :: after) = true ->
    exists d0 e0 d1 e1 d2 e2,
      calls before Dashboard_new (Env0 n) = Some (d0, e0)
      /\ call c d0 e0 = Some (d1, e1)
      /\ calls after d1 e1 = Some (d2, e2)
      /\ calls (before ++ c :: after) Dashboard_new (Env0 n) = Some (d2, e2)
      /\ fuel_level (data_ d1)
         = match c with
           | CallInitialize => fuel_level (data_ d0)
           | _ => Rmax (fuel_level (data_ d0) - 0.001) 0
           end
      /\ fuel_level (data_ d1) <= fuel_level (data_ d0)
      /\ fuel_level (data_ d2) <= fuel_level (data_ d1)
      /\ 0 <= fuel_level (data_ d2).
Proof.
  intros before after c n Ha.
  unfold all_available in Ha; rewrite forallb_app in Ha; simpl in Ha.
  apply andb_true_iff in Ha; destruct Ha as [Hb Hca].
  apply andb_true_iff in Hca; destruct Hca as [Hc Hafter].
  destruct (calls_fuel before Dashboard_new (Env0 n) Hb)
    as (d0 & e0 & H0 & Hc0 & Hf0);
    [left; apply unbuilt_new | simpl; lra |].
  destruct (call_consistent c d0 e0 Hc Hc0) as (d1 & e1 & H1 & Hc1 & Hf1).
  assert (Hd1 : 0 <= fuel_level (data_ d1) <= fuel_level (data_ d0))
    by (rewrite Hf1; destruct c; simpl; by_cases).
  destruct (calls_fuel after d1 e1 Hafter Hc1 (proj1 Hd1))
    as (d2 & e2 & H2 & _ & Hf2).
  exists d0, e0, d1, e1, d2, e2.
  split; [exact H0 |].
  split; [exact H1 |].
  split; [exact H2 |].
  split; [rewrite calls_app, H0; simpl; unfold bind; rewrite H1; exact H2 |].
  split; [rewrite Hf1; now destruct c |].
  repeat split; lra.
Qed.

Lemma fuel_level_non_increasing_witness :
  let u := CallUpdateData (Model 0) (MkData [3; 4; 0] []) in
  let r := CallRender (Model 0) (MkData [0; 0; 0] []) None (MkRect 0 0 800 600) in
  all_available ([u] ++ r :: [u]) = true
  /\ exists d0 e0 d1 e1 d2 e2,
      calls [u] Dashboard_new (Env0 0) = Some (d0, e0)
      /\ call r d0 e0 = Some (d1, e1)
      /\ calls [u] d1 e1 = Some (d2, e2)
      /\ calls ([u] ++ r :: [u]) Dashboard_new (Env0 0) = Some (d2, e2)
      /\ fuel_level (data_ d1) = Rmax (fuel_level (data_ d0) - 0.001) 0
      /\ fuel_level (data_ d1) <= fuel_level (data_ d0)
      /\ fuel_level (data_ d2) <= fuel_level (data_ d1)
      /\ 0 <= fuel_level (data_ d2).
Proof.
  intros u r; split; [reflexivity |].
  apply (fuel_level_non_increasing [u] [u] r 0); reflexivity.
Defined.

(** ** Lazy construction of the widgets *)

Lemma last_cons_default {A} (l : list A) (a d1 d2 : A) :
  last (a :: l) d1 = last (a :: l) d2.
Proof.
  revert a; induction l as [|b l IH]; intros a; [reflexivity |].
  change (last (b :: l) d1 = last (b :: l) d2); apply IH.
Qed.

Lemma renders_keep_widgets (frs : list Frame) :
  forall (this : Dashboard) (e : Env) (id : nat) (con : option mjrContext)
         (now_ : Frame),
    frames_available frs = true ->
    widgets_at this id con (frame_rect now_) ->
    exists this' e',
      calls (map render_call frs) this e = Some (this', e')
      /\ widgets_at this' id con (frame_rect (last frs now_))
      /\ allocated e' = allocated e.
Proof.
  induction frs as [|fr frs IH]; intros this e id con now_ Ha Hw.
  - exists this, e; repeat split; auto.
  - simpl in Ha; apply andb_true_iff in Ha; destruct Ha as [Hfr Hfrs].
    destruct (Render_widgets_at (frame_model fr) (frame_data fr)
                (frame_context fr) (frame_rect fr) this e id con
                (frame_rect now_) Hfr Hw)
      as (d & e1 & Hr & Hw1 & Hal & _).
    destruct (IH d e1 id con fr Hfrs Hw1) as (d' & e' & Hcs & Hw' & Hal').
    exists d', e'; simpl; unfold bind; rewrite Hr.
    split; [exact Hcs |].
    split; [| congruence].
    destruct frs as [|fr2 frs2]; [exact Hw' |].
    change (last (fr :: fr2 :: frs2) now_) with (last (fr2 :: frs2) now_).
    now rewrite (last_cons_default frs2 fr2 now_ fr).
Qed.

(** C6: on a new controller the first [Render] creates the three widgets,
    at the positions computed from its frame rectangle; whatever number of
    [Render] calls follows, no further object is created, the three widgets
    keep their identities, their radii and the context they were built
    with, and they stand at the positions computed from the latest frame
    rectangle. *)
Theorem widgets_created_once_then_repositioned :
  forall (first : Frame) (later : list Frame) (e : Env),
    frames_available (first :: later) = true ->
    exists d1 e1 d e',
      call (render_call first) Dashboard_new e = Some (d1, e1)
      /\ calls (map render_call later) d1 e1 = Some (d, e')
      /\ allocated e1 = (3 + allocated e)%nat
      /\ allocated e' = allocated e1
      /\ widgets_at d1 (allocated e) (frame_context first) (frame_rect first)
      /\ widgets_at d (allocated e) (frame_context first)
           (frame_rect (last later first)).
Proof.
  intros first later e Ha.
  simpl in Ha; apply andb_true_iff in Ha; destruct Ha as [Hf Hl].
  destruct (Render_unbuilt (frame_model first) (frame_data first)
              (frame_context first) (frame_rect first) Dashboard_new e Hf
              unbuilt_new)
    as (d1 & e1 & Hr & Hw & Hal & _).
  destruct (renders_keep_widgets later d1 e1 (allocated e)
              (frame_context first) first Hl Hw)
    as (d & e' & Hcs & Hw' & Hal').
  exists d1, e1, d, e'; repeat split; auto.
Qed.

Lemma widgets_created_once_then_repositioned_witness :
  let f1 := MkFrame (Model 0) (MkData [3; 4; 0] []) (Some (Context 0))
              (MkRect 0 0 800 600) in
  let f2 := MkFrame (Model 0) (MkData [0; 0; 0] []) (Some (Context 0))
              (MkRect 0 0 1000 800) in
  frames_available [f1; f2] = true
  /\ exists d1 e1 d e',
      call (render_call f1) Dashboard_new (Env0 0) = Some (d1, e1)
      /\ calls (map render_call [f2]) d1 e1 = Some (d, e')
      /\ allocated e1 = (3 + allocated (Env0 0))%nat
      /\ allocated e' = allocated e1
      /\ widgets_at d1 (allocated (Env0 0)) (frame_context f1) (frame_rect f1)
      /\ widgets_at d (allocated (Env0 0)) (frame_context f1)
           (frame_rect (last [f2] f1)).
Proof.
  intros f1 f2; split; [reflexivity |].
  apply (widgets_created_once_then_repositioned f1 [f2] (Env0 0)).
  reflexivity.
Defined.

(** ** The rendering context *)

Lemma Speedometer_draw_length (w : Speedometer) :
  (3 <= List.length (Speedometer.draw w))%nat.
Proof.
  unfold Speedometer.draw, draw_hub; rewrite !length_app; simpl; lia.
Qed.

Lemma render_null_context :
  forall (s : Speedometer) (t : Tachometer) (f : FuelGauge) (e : Env),
    (mjr_context_ (base s) = None -> render s e = Some (s, e))
    /\ (mjr_context_ (base t) = None -> render t e = Some (t, e))
    /\ (mjr_context_ (base f) = None -> render f e = Some (f, e)).
Proof.
  intros s t f e; repeat split; intros H.
  - rewrite Speedometer_render_eq; unfold Speedometer_output.
    now rewrite H, drawn_nil.
  - rewrite Tachometer_render_eq; unfold Tachometer_output.
    now rewrite H, drawn_nil.
  - rewrite FuelGauge_render_eq; unfold FuelGauge_output.
    now rewrite H, drawn_nil.
Qed.

(** C9, as stated, on a controller whose widgets were built on an earlier
    frame that had a context: a [Render] call made with a null context
    still issues host draw calls, because each widget tests the context it
    was constructed with. *)
Lemma Render_null_context_still_draws :
  exists d1 e1 d2 e2,
    Dashboard.Render (Model 0) (MkData [0; 0; 0] []) (Some (Context 0))
      (MkRect 0 0 800 600) Dashboard_new (Env0 0) = Some (d1, e1)
    /\ Dashboard.Render (Model 0) (MkData [0; 0; 0] []) None
         (MkRect 0 0 800 600) d1 e1 = Some (d2, e2)
    /\ (List.length (frame e1) < List.length (frame e2))%nat.
Proof.
  do 4 eexists.
  split; [apply (Render_first _ _ _ _ _ _ 0 0 0 []);
          [reflexivity | apply unbuilt_new] |].
  split; [apply (Render_later _ _ _ _ _ _ 0 0 0 []);
          [reflexivity | repeat split] |].
  unfold drawn; cbn [frame]; rewrite (length_app (_ ++ _)).
  match goal with
  | |- (_ < _ + List.length (Speedometer_output ?w ++ _))%nat =>
      rewrite (length_app (Speedometer_output w));
      change (Speedometer_output w) with (Speedometer.draw w);
      pose proof (Speedometer_draw_length w)
  end.
  lia.
Qed.

(** C9 (amended): a widget whose own context is null returns from [render]
    at once, issuing nothing.  Hence a [Render] call made with a null
    context, on a controller whose widgets do not yet exist or were built
    with a null context, issues no host draw call, and still stores that
    frame's snapshot. *)
Theorem render_without_context_draws_nothing :
  forall (model : mjModel) (data : mjData) (rect : mjrRect)
         (this : Dashboard) (e : Env)
         (s : Speedometer) (t : Tachometer) (f : FuelGauge),
    available data = true ->
    unbuilt this \/ (exists id rect0, widgets_at this id None rect0) ->
    (exists this' e' v0 v1 v2 rest,
        qvel data = v0 :: v1 :: v2 :: rest
        /\ Dashboard.Render model data None rect this e = Some (this', e')
        /\ frame e' = frame e
        /\ data_ this' = sampled v0 v1 v2 (fuel_level (data_ this)))
    /\ (mjr_context_ (base s) = None -> render s e = Some (s, e))
    /\ (mjr_context_ (base t) = None -> render t e = Some (t, e))
    /\ (mjr_context_ (base f) = None -> render f e = Some (f, e)).
Proof.
  intros model data rect this e s t f Ha Hw.
  split; [| apply render_null_context].
  destruct (available_qvel data Ha) as (v0 & v1 & v2 & rest & Hq).
  destruct Hw as [Hu | (id & rect0 & vs & vt & vf & Hb)].
  - do 2 eexists; exists v0, v1, v2, rest.
    split; [exact Hq |].
    split; [apply (Render_first _ _ _ _ _ _ _ _ _ _ Hq Hu) |].
    split; [simpl; now rewrite app_nil_r | reflexivity].
  - do 2 eexists; exists v0, v1, v2, rest.
    split; [exact Hq |].
    split; [apply (Render_later _ _ _ _ _ _ _ _ _ _ _ _ _ Hq Hb) |].
    split; [simpl; now rewrite app_nil_r | reflexivity].
Qed.

Lemma render_without_context_draws_nothing_witness :
  available (MkData [3; 4; 0] []) = true
  /\ (unbuilt Dashboard_new
      \/ (exists id rect0, widgets_at Dashboard_new id None rect0))
  /\ exists this' e' v0 v1 v2 rest,
      qvel (MkData [3; 4; 0] []) = v0 :: v1 :: v2 :: rest
      /\ Dashboard.Render (Model 0) (MkData [3; 4; 0] []) None
           (MkRect 0 0 800 600) Dashboard_new (Env0 0) = Some (this', e')
      /\ frame e' = frame (Env0 0)
      /\ data_ this'
         = sampled v0 v1 v2 (fuel_level (data_ Dashboard_new)).
Proof.
  split; [reflexivity |].
  split; [left; repeat split |].
  apply (render_without_context_draws_nothing (Model 0)
           (MkData [3; 4; 0] []) (MkRect 0 0 800 600) Dashboard_new (Env0 0)
           (first_speedometer None (MkRect 0 0 800 600))
           (first_tachometer None (MkRect 0 0 800 600))
           (first_fuel_gauge None (MkRect 0 0 800 600))).
  - reflexivity.
  - left; repeat split.
Defined.

(** ** The first frame *)

Lemma clamped_fuel_zero : FuelGauge.clamped_fuel 0.0 = 0.
Proof. rewrite clamped_fuel_spec; unfold spec_clamp; by_cases. Qed.

Lemma FuelGauge_draw_readout (w : FuelGauge) :
  In (mjr_text 0 (Fmt_0f (FuelGauge.clamped_fuel (fuel_level_ w)))
        (mjr_context_ (base w)) (x_ (base w)) (y_ (base w) + 5.0)
        1.0 1.0 1.0)
     (FuelGauge.draw w).
Proof.
  unfold FuelGauge.draw, draw_hub.
  repeat (apply in_or_app; right).
  left; reflexivity.
Qed.

(** C10: on the first [Render] of a controller the sampler runs while no
    widget exists, so the widgets then created keep the [0.0] of their
    constructors and that is what the frame shows (the fuel readout is 0
    while the snapshot holds 100 - 0.001); the widgets receive sampled
    values on the second [Render], whose sampler call finds them. *)
Theorem first_frame_shows_constructor_values :
  forall (model model' : mjModel) (data data' : mjData)
         (con con' : option mjrContext) (rect rect' : mjrRect) (e : Env),
    available data = true ->
    available data' = true ->
    exists d1 e1 d2 e2 s1 t1 f1 s2 t2 f2,
      Dashboard.Render model data con rect Dashboard_new e = Some (d1, e1)
      /\ built d1 s1 t1 f1
      /\ speed_ (obj_val s1) = 0.0
      /\ rpm_ (obj_val t1) = 0.0
      /\ fuel_level_ (obj_val f1) = 0.0
      /\ fuel_level (data_ d1) = 100 - 0.001
      /\ frame e1 = frame e ++ Speedometer_output (obj_val s1)
                    ++ Tachometer_output (obj_val t1)
                    ++ FuelGauge_output (obj_val f1)
      /\ (forall c, con = Some c ->
            In (mjr_text 0 (Fmt_0f 0) con (Dashboard.fuel_gauge_x rect)
                  (Dashboard.fuel_gauge_y rect + 5.0) 1.0 1.0 1.0)
               (frame e1))
      /\ Dashboard.Render model' data' con' rect' d1 e1 = Some (d2, e2)
      /\ built d2 s2 t2 f2
      /\ speed_ (obj_val s2) = speed (data_ d2)
      /\ rpm_ (obj_val t2) = rpm (data_ d2)
      /\ fuel_level_ (obj_val f2) = fuel_level (data_ d2)
      /\ fuel_level (data_ d2) = 100 - 0.002.
Proof.
  intros model model' data data' con con' rect rect' e Ha Ha'.
  destruct (available_qvel data Ha) as (v0 & v1 & v2 & rest & Hq).
  destruct (available_qvel data' Ha') as (w0 & w1 & w2 & rest' & Hq').
  do 10 eexists.
  split; [apply (Render_first _ _ _ _ _ _ _ _ _ _ Hq unbuilt_new) |].
  split; [repeat split |].
  do 3 (split; [reflexivity |]).
  split; [simpl; by_cases |].
  split; [reflexivity |].
  split.
  { intros c Hc; cbn [frame obj_val].
    apply in_or_app; right; apply in_or_app; right; apply in_or_app; right.
    unfold FuelGauge_output; subst con; cbn [base FuelGauge_Element
      first_fuel_gauge FuelGauge_new FuelGauge_base mjr_context_].
    pose proof (FuelGauge_draw_readout
                  (first_fuel_gauge (Some c) rect)) as H.
    cbn [base FuelGauge_Element first_fuel_gauge FuelGauge_new
           FuelGauge_base mjr_context_ x_ y_ fuel_level_] in H.
    rewrite clamped_fuel_zero in H; exact H. }
  split; [eapply Render_later; [exact Hq' | repeat split] |].
  split; [repeat split |].
  do 3 (split; [reflexivity |]).
  simpl; by_cases.
Qed.

Lemma first_frame_shows_constructor_values_witness :
  let data := MkData [3; 4; 0] [] in
  let rect := MkRect 0 0 800 600 in
  available data = true
  /\ exists d1 e1 d2 e2 s1 t1 f1 s2 t2 f2,
      Dashboard.Render (Model 0) data (Some (Context 0)) rect Dashboard_new
        (Env0 0) = Some (d1, e1)
      /\ built d1 s1 t1 f1
      /\ speed_ (obj_val s1) = 0.0
      /\ rpm_ (obj_val t1) = 0.0
      /\ fuel_level_ (obj_val f1) = 0.0
      /\ fuel_level (data_ d1) = 100 - 0.001
      /\ frame e1 = frame (Env0 0) ++ Speedometer_output (obj_val s1)
                    ++ Tachometer_output (obj_val t1)
                    ++ FuelGauge_output (obj_val f1)
      /\ (forall c, Some (Context 0) = Some c ->
            In (mjr_text 0 (Fmt_0f 0) (Some (Context 0))
                  (Dashboard.fuel_gauge_x rect)
                  (Dashboard.fuel_gauge_y rect + 5.0) 1.0 1.0 1.0)
               (frame e1))
      /\ Dashboard.Render (Model 0) data (Some (Context 0)) rect d1 e1
         = Some (d2, e2)
      /\ built d2 s2 t2 f2
      /\ speed_ (obj_val s2) = speed (data_ d2)
      /\ rpm_ (obj_val t2) = rpm (data_ d2)
      /\ fuel_level_ (obj_val f2) = fuel_level (data_ d2)
      /\ fuel_level (data_ d2) = 100 - 0.002.
Proof.
  intros data rect; split; [reflexivity |].
  apply (first_frame_shows_constructor_values (Model 0) (Model 0) data data
           (Some (Context 0)) (Some (Context 0)) rect rect (Env0 0));
    reflexivity.
Defined.

(** ** Scale marks and labels *)

Lemma Speedometer_mark_angle (i : nat) :
  mark_angle Speedometer.start_angle Speedometer.end_angle
    Speedometer.num_marks i = - PI / 2 + INR i * (PI / 12).
Proof.
  unfold mark_angle, Speedometer.start_angle, Speedometer.end_angle,
    Speedometer.num_marks, M_PI.
  change (INR (13 - 1)) with (INR 12); rewrite (INR_IZR_INZ 12); simpl Z.of_nat.
  lra.
Qed.

Lemma Tachometer_mark_angle (i : nat) :
  mark_angle Tachometer.start_angle Tachometer.end_angle
    Tachometer.num_marks i = - PI / 2 + INR i * (PI / 8).
Proof.
  unfold mark_angle, Tachometer.start_angle, Tachometer.end_angle,
    Tachometer.num_marks, M_PI.
  change (INR (9 - 1)) with (INR 8); rewrite (INR_IZR_INZ 8); simpl Z.of_nat.
  lra.
Qed.

Lemma FuelGauge_mark_angle (i : nat) :
  mark_angle FuelGauge.start_angle FuelGauge.end_angle
    FuelGauge.num_marks i = PI / 2 - INR i * (PI / 10).
Proof.
  unfold mark_angle, FuelGauge.start_angle, FuelGauge.end_angle,
    FuelGauge.num_marks, M_PI.
  change (INR (11 - 1)) with (INR 10); rewrite (INR_IZR_INZ 10);
    simpl Z.of_nat.
  lra.
Qed.

Lemma Speedometer_label_value (i : nat) :
  static_cast_int
    (Speedometer.min_speed
     + (Speedometer.max_speed - Speedometer.min_speed) * INR i
       / INR (Speedometer.num_marks - 1))
  = Z.of_nat (20 * i).
Proof.
  rewrite <- static_cast_int_INR; f_equal.
  unfold Speedometer.min_speed, Speedometer.max_speed, Speedometer.num_marks.
  change (INR (13 - 1)) with (INR 12).
  rewrite mult_INR, (INR_IZR_INZ 12), (INR_IZR_INZ 20); simpl Z.of_nat.
  lra.
Qed.

Lemma Tachometer_label_value (i : nat) :
  Z.quot
    (static_cast_int
       (Tachometer.min_rpm
        + (Tachometer.max_rpm - Tachometer.min_rpm) * INR i
          / INR (Tachometer.num_marks - 1)))
    1000
  = Z.of_nat i.
Proof.
  replace (Tachometer.min_rpm
           + (Tachometer.max_rpm - Tachometer.min_rpm) * INR i
             / INR (Tachometer.num_marks - 1))
    with (IZR (Z.of_nat i * 1000)).
  - rewrite static_cast_int_IZR; apply Z.quot_mul; lia.
  - unfold Tachometer.min_rpm, Tachometer.max_rpm, Tachometer.num_marks.
    change (INR (9 - 1)) with (INR 8).
    rewrite mult_IZR, <- INR_IZR_INZ, (INR_IZR_INZ 8); simpl Z.of_nat.
    lra.
Qed.

(** C8, as stated, on the tachometer: mark 1, an odd one, carries a label,
    and the scale has nine labels for its nine marks. *)
Lemma Tachometer_labels_every_mark :
  (1 mod 2 =? 0)%nat = false
  /\ List.length (filter is_text (Tachometer.mark 0 0 80 None 1)) = 1%nat
  /\ List.length (filter is_text (Tachometer.scale 0 0 80 None)) = 9%nat
  /\ List.length (filter is_rectangle (Tachometer.scale 0 0 80 None))
     = 9%nat.
Proof. repeat split. Qed.

(** C8 (amended): every gauge places its marks (13, 9 and 11 of them) at
    equal angular steps over the half circle, from the start angle of its
    scale to the end angle.  The speedometer and the fuel gauge draw a
    label at every other mark, the even ones; the tachometer draws one at
    every mark.  The labels of the speedometer (20 i at mark i) and of the
    tachometer (i at mark i) are fixed scale values. *)
Theorem scale_marks_evenly_spaced :
  forall (center_x center_y radius clamped : R) (con : option mjrContext)
         (i : nat),
    (* the speedometer *)
    (Speedometer.mark center_x center_y radius con i
     = draw_mark center_x center_y radius (- PI / 2 + INR i * (PI / 12))
       :: (if (i mod 2 =? 0)%nat then
             [draw_label center_x center_y (radius - 30.0)
                (- PI / 2 + INR i * (PI / 12))
                (Fmt_d (Z.of_nat (20 * i))) con]
           else []))
    /\ List.length (filter is_rectangle
                      (Speedometer.scale center_x center_y radius con))
       = 13%nat
    /\ List.length (filter is_text
                      (Speedometer.scale center_x center_y radius con))
       = 7%nat
    (* the tachometer *)
    /\ (Tachometer.mark center_x center_y radius con i
        = [draw_mark center_x center_y radius (- PI / 2 + INR i * (PI / 8));
           draw_label center_x center_y (radius - 25.0)
             (- PI / 2 + INR i * (PI / 8)) (Fmt_d (Z.of_nat i)) con])
    /\ List.length (filter is_rectangle
                      (Tachometer.scale center_x center_y radius con))
       = 9%nat
    /\ List.length (filter is_text
                      (Tachometer.scale center_x center_y radius con))
       = 9%nat
    (* the fuel gauge *)
    /\ (exists txt,
           FuelGauge.mark clamped center_x center_y radius con i
           = draw_mark center_x center_y radius (PI / 2 - INR i * (PI / 10))
             :: (if (i mod 2 =? 0)%nat then
                   [draw_label center_x center_y (radius - 25.0)
                      (PI / 2 - INR i * (PI / 10)) txt con]
                 else []))
    /\ List.length (filter is_rectangle
                      (FuelGauge.scale clamped center_x center_y radius con))
       = 11%nat
    /\ List.length (filter is_text
                      (FuelGauge.scale clamped center_x center_y radius con))
       = 6%nat
    (* the ends of the scales *)
    /\ mark_angle Speedometer.start_angle Speedometer.end_angle 13 0
       = - M_PI / 2
    /\ mark_angle Speedometer.start_angle Speedometer.end_angle 13 12
       = M_PI / 2
    /\ mark_angle Tachometer.start_angle Tachometer.end_angle 9 0
       = - M_PI / 2
    /\ mark_angle Tachometer.start_angle Tachometer.end_angle 9 8
       = M_PI / 2
    /\ mark_angle FuelGauge.start_angle FuelGauge.end_angle 11 0 = M_PI / 2
    /\ mark_angle FuelGauge.start_angle FuelGauge.end_angle 11 10
       = - M_PI / 2.
Proof.
  intros center_x center_y radius clamped con i.
  split.
  { unfold Speedometer.mark.
    rewrite Speedometer_mark_angle, Speedometer_label_value; reflexivity. }
  do 2 (split; [reflexivity |]).
  split.
  { unfold Tachometer.mark.
    rewrite Tachometer_mark_angle, Tachometer_label_value; reflexivity. }
  do 2 (split; [reflexivity |]).
  split.
  { eexists; unfold FuelGauge.mark.
    rewrite FuelGauge_mark_angle; reflexivity. }
  do 2 (split; [reflexivity |]).
  pose proof (Speedometer_mark_angle 0) as S0.
  pose proof (Speedometer_mark_angle 12) as S12.
  pose proof (Tachometer_mark_angle 0) as T0.
  pose proof (Tachometer_mark_angle 8) as T8.
  pose proof (FuelGauge_mark_angle 0) as F0.
  pose proof (FuelGauge_mark_angle 10) as F10.
  unfold Speedometer.num_marks, Tachometer.num_marks, FuelGauge.num_marks
    in *.
  rewrite S0, S12, T0, T8, F0, F10; unfold M_PI.
  rewrite (INR_IZR_INZ 12), (INR_IZR_INZ 8), (INR_IZR_INZ 10),
    (INR_IZR_INZ 0); simpl Z.of_nat.
  repeat split; lra.
Qed.

(** The labels of the fuel scale are computed from the clamped level, not
    from the scale alone: the last mark reads 0 on a full tank and 50 on a
    half-full one. *)
Remark FuelGauge_label_follows_level :
  static_cast_int (100.0 - (100 / 100.0) * INR 10 * 10.0) = 0%Z
  /\ static_cast_int (100.0 - (50 / 100.0) * INR 10 * 10.0) = 50%Z.
Proof.
  rewrite (INR_IZR_INZ 10); simpl Z.of_nat; split.
  - replace (100.0 - 100 / 100.0 * 10 * 10.0) with (IZR 0) by lra.
    apply static_cast_int_IZR.
  - replace (100.0 - 50 / 100.0 * 10 * 10.0) with (IZR 50) by lra.
    apply static_cast_int_IZR.
Qed.

(** * Further properties of the code *)

(** ** The drawing helpers *)

Lemma static_cast_int_unit (x : R) : 0 <= x < 1 -> static_cast_int x = 0%Z.
Proof.
  intros H; unfold static_cast_int; rewrite Rltb_false by lra.
  symmetry; apply Int_part_spec; lra.
Qed.

Lemma static_cast_int_below (x : R) :
  0 <= x -> IZR (static_cast_int x) <= x.
Proof.
  intros H; unfold static_cast_int; rewrite Rltb_false by lra.
  apply (base_Int_part x).
Qed.

Lemma static_cast_int_negative (x : R) :
  x < 0 -> (static_cast_int x <= 0)%Z.
Proof.
  intros H; unfold static_cast_int; rewrite Rltb_true by lra.
  assert (Hi : (0 <= Int_part (- x))%Z).
  { apply le_IZR; destruct (base_Int_part (- x)) as [_ Hb]; simpl.
    assert (Hn : -1 < IZR (Int_part (- x))) by lra.
    apply lt_IZR in Hn; apply IZR_le; lia. }
  lia.
Qed.

Lemma DrawCircle_tiles (center_x center_y radius r g b a : R)
    (con : option mjrContext) :
  Forall (tile_of (static_cast_int (radius * 0.05)) r g b a)
    (DrawCircle center_x center_y radius r g b a con).
Proof.
  unfold DrawCircle; apply Forall_forall; intros c Hc.
  apply in_map_iff in Hc; destruct Hc as (i & <- & _).
  simpl; repeat split.
Qed.

Lemma DrawArc_tiles (center_x center_y radius start_angle end_angle
    r g b a : R) (con : option mjrContext) :
  Forall (tile_of (static_cast_int (radius * 0.05)) r g b a)
    (DrawArc center_x center_y radius start_angle end_angle r g b a con).
Proof.
  unfold DrawArc; apply Forall_forall; intros c Hc.
  apply in_map_iff in Hc; destruct Hc as (i & <- & _).
  simpl; repeat split.
Qed.

(** X1: [DrawArc] and [DrawCircle] always issue exactly 100 rectangles of
    the requested colour, however short the arc; each is a square of side
    [(int)(radius * 0.05)], which is 0 for every radius in [[0, 20)]: such a
    circle or arc consists of empty rectangles only. *)
Theorem arcs_and_circles_below_20_are_empty :
  forall (center_x center_y radius start_angle end_angle r g b a : R)
         (con : option mjrContext),
    0 <= radius < 20 ->
    List.length
      (DrawArc center_x center_y radius start_angle end_angle r g b a con)
    = 100%nat
    /\ List.length (DrawCircle center_x center_y radius r g b a con)
       = 100%nat
    /\ Forall (tile_of 0 r g b a)
         (DrawArc center_x center_y radius start_angle end_angle r g b a con)
    /\ Forall (tile_of 0 r g b a)
         (DrawCircle center_x center_y radius r g b a con).
Proof.
  intros center_x center_y radius start_angle end_angle r g b a con H.
  assert (Hs : static_cast_int (radius * 0.05) = 0%Z)
    by (apply static_cast_int_unit; lra).
  split; [unfold DrawArc; now rewrite length_map, length_seq |].
  split; [unfold DrawCircle; now rewrite length_map, length_seq |].
  rewrite <- Hs; split; [apply DrawArc_tiles | apply DrawCircle_tiles].
Qed.

Lemma arcs_and_circles_below_20_are_empty_witness :
  0 <= 15 < 20
  /\ List.length (DrawArc 0 0 15 0 1 1 1 1 1 None) = 100%nat
  /\ List.length (DrawCircle 0 0 15 1 1 1 1 None) = 100%nat
  /\ Forall (tile_of 0 1 1 1 1) (DrawArc 0 0 15 0 1 1 1 1 1 None)
  /\ Forall (tile_of 0 1 1 1 1) (DrawCircle 0 0 15 1 1 1 1 None).
Proof.
  split; [lra |].
  apply (arcs_and_circles_below_20_are_empty 0 0 15 0 1 1 1 1 1 None); lra.
Defined.

Lemma DrawFilledCircle_rings_all (idx : list nat)
    (center_x center_y radius r g b a : R) (con : option mjrContext) :
  Forall (fun i => 0 <= radius - INR i * 2) idx ->
  DrawFilledCircle_rings idx center_x center_y radius r g b a con
  = flat_map (fun i => DrawCircle center_x center_y (radius - INR i * 2)
                         r g b a con) idx.
Proof.
  induction idx as [|i idx IH]; intros H; simpl; [reflexivity |].
  inversion H as [|? ? Hi Hrest]; subst.
  rewrite Rltb_false by lra; now rewrite IH.
Qed.

Lemma rings_fit (radius : R) (i : nat) :
  (i < Z.to_nat (static_cast_int (radius / 2)))%nat ->
  2 <= radius - INR i * 2.
Proof.
  intros Hi.
  destruct (Rlt_dec radius 0) as [Hn | Hp].
  - pose proof (static_cast_int_negative (radius / 2)) as Hz.
    assert (Hq : radius / 2 < 0) by lra.
    specialize (Hz Hq); lia.
  - pose proof (static_cast_int_below (radius / 2)) as Hb.
    assert (Hq : 0 <= radius / 2) by lra.
    specialize (Hb Hq).
    assert (Hz : (Z.of_nat i + 1 <= static_cast_int (radius / 2))%Z) by lia.
    apply IZR_le in Hz; rewrite plus_IZR, <- INR_IZR_INZ in Hz.
    lra.
Qed.

(** X2: the [break] of [DrawFilledCircle] is never taken: the call draws
    the [(int)(radius / 2)] circles of radius [radius - 2 i] in full, 100
    rectangles each, the innermost of radius at least 2; for a radius below
    2 it draws nothing. *)
Theorem DrawFilledCircle_draws_every_ring :
  forall (center_x center_y radius r g b a : R) (con : option mjrContext),
    let rings := Z.to_nat (static_cast_int (radius / 2)) in
    DrawFilledCircle center_x center_y radius r g b a con
    = flat_map (fun i => DrawCircle center_x center_y (radius - INR i * 2)
                           r g b a con) (seq 0 rings)
    /\ List.length (DrawFilledCircle center_x center_y radius r g b a con)
       = (100 * rings)%nat
    /\ (forall i, (i < rings)%nat -> 2 <= radius - INR i * 2)
    /\ (radius < 2 ->
        DrawFilledCircle center_x center_y radius r g b a con = []).
Proof.
  intros center_x center_y radius r g b a con rings.
  assert (Heq : DrawFilledCircle center_x center_y radius r g b a con
                = flat_map (fun i => DrawCircle center_x center_y
                                       (radius - INR i * 2) r g b a con)
                    (seq 0 rings)).
  { unfold DrawFilledCircle; fold rings.
    apply DrawFilledCircle_rings_all, Forall_forall; intros i Hi.
    apply in_seq in Hi; pose proof (rings_fit radius i) as Hf.
    fold rings in Hf; assert (Hlt : (i < rings)%nat) by lia.
    specialize (Hf Hlt); lra. }
  split; [exact Heq |].
  split.
  { rewrite Heq.
    assert (Hlen : forall n start,
               List.length
                 (flat_map (fun i => DrawCircle center_x center_y
                                       (radius - INR i * 2) r g b a con)
                    (seq start n)) = (100 * n)%nat).
    { induction n as [|k IH]; intros start; [reflexivity |].
      cbn [seq flat_map].
      rewrite length_app, IH; unfold DrawCircle at 1.
      rewrite length_map, length_seq; lia. }
    apply Hlen. }
  split; [intros i Hi; now apply rings_fit |].
  intros Hr; rewrite Heq.
  assert (H0 : rings = 0%nat).
  { unfold rings; destruct (Rlt_dec radius 0) as [Hn | Hp].
    - pose proof (static_cast_int_negative (radius / 2)) as Hz.
      assert (Hq : radius / 2 < 0) by lra.
      specialize (Hz Hq); lia.
    - rewrite static_cast_int_unit by lra; reflexivity. }
  rewrite H0; reflexivity.
Qed.

Lemma DrawFilledCircle_draws_every_ring_witness :
  (1 < 2) /\ DrawFilledCircle 0 0 1 0 0 0 1 None = [].
Proof.
  split; [lra |].
  apply (DrawFilledCircle_draws_every_ring 0 0 1 0 0 0 1 None); lra.
Defined.

(** ** Needle and status arc *)

Lemma dial_range (top lo hi v : R) :
  0 < top -> lo = 0 -> hi = top ->
  - PI / 2 <= dial top (spec_clamp lo hi v) <= PI / 2.
Proof.
  intros Ht -> ->.
  pose proof (spec_clamp_range 0 top v (Rlt_le _ _ Ht)) as Hc.
  pose proof (dial_monotone top 0 (spec_clamp 0 top v) Ht (proj1 Hc)) as H0.
  pose proof (dial_monotone top (spec_clamp 0 top v) top Ht (proj2 Hc)) as H1.
  unfold dial in H0 at 1; unfold dial in H1 at 2.
  replace (- PI / 2 + PI * (0 / top)) with (- PI / 2) in H0 by (field; lra).
  replace (- PI / 2 + PI * (top / top)) with (PI / 2) in H1 by (field; lra).
  lra.
Qed.

(** X3: whatever value a gauge holds, its needle angle lies in
    [[- PI / 2, PI / 2]], so the needle never points left of the hub: the
    cosine of its angle is not negative. *)
Theorem needle_stays_on_the_scale :
  forall v : R,
    (- PI / 2 <= speed_needle v <= PI / 2 /\ 0 <= cos (speed_needle v))
    /\ (- PI / 2 <= rpm_needle v <= PI / 2 /\ 0 <= cos (rpm_needle v))
    /\ (- PI / 2 <= fuel_needle v <= PI / 2 /\ 0 <= cos (fuel_needle v)).
Proof.
  intros v.
  assert (Hs : - PI / 2 <= speed_needle v <= PI / 2)
    by (rewrite speed_needle_dial; apply dial_range; lra).
  assert (Hr : - PI / 2 <= rpm_needle v <= PI / 2)
    by (rewrite rpm_needle_dial; apply dial_range; lra).
  assert (Hf : - PI / 2 <= fuel_needle v <= PI / 2)
    by (rewrite fuel_needle_dial; apply dial_range; lra).
  repeat split; try lra; apply cos_ge_0; lra.
Qed.

Lemma speed_angle_dial (c : R) : Speedometer.speed_angle c = dial 240 c.
Proof.
  unfold Speedometer.speed_angle, Speedometer.start_angle,
    Speedometer.end_angle, Speedometer.max_speed, M_PI, dial; lra.
Qed.

Lemma rpm_angle_dial (c : R) : Tachometer.rpm_angle c = dial 8000 c.
Proof.
  unfold Tachometer.rpm_angle, Tachometer.start_angle, Tachometer.end_angle,
    Tachometer.max_rpm, M_PI, dial; lra.
Qed.

Lemma fuel_angle_dial (c : R) : FuelGauge.fuel_angle c = dial 100 c.
Proof.
  unfold FuelGauge.fuel_angle, FuelGauge.start_angle, FuelGauge.end_angle,
    M_PI, dial; lra.
Qed.

Lemma dial_zero (top : R) : 0 < top -> dial top 0 = - PI / 2.
Proof. intros H; unfold dial; field; lra. Qed.

(** X4: on the speedometer and the tachometer the segments of the status
    arc are drawn in the order green, yellow, red; they lead from the start
    of the scale to the needle, each beginning where the one before it
    ended, and none runs backward. *)
Theorem status_arc_leads_to_the_needle :
  forall v : R,
    (let c := Speedometer.clamped_speed v in
     chained (Speedometer.arc c) Speedometer.start_angle
       (Speedometer.speed_angle c)
     /\ Forall forward (Speedometer.arc c)
     /\ (exists n, zones (Speedometer.arc c) = firstn n [Green; Yellow; Red]))
    /\ (let c := Tachometer.clamped_rpm v in
        chained (Tachometer.arc c) Tachometer.start_angle
          (Tachometer.rpm_angle c)
        /\ Forall forward (Tachometer.arc c)
        /\ (exists n, zones (Tachometer.arc c)
                      = firstn n [Green; Yellow; Red])).
Proof.
  intros v; split.
  - intros c.
    assert (Hc : 0 <= c <= 240)
      by (unfold c; rewrite clamped_speed_spec; apply spec_clamp_range; lra).
    assert (Hstart : Speedometer.start_angle = dial 240 0)
      by (rewrite dial_zero by lra; unfold Speedometer.start_angle, M_PI; lra).
    destruct (Speedometer_arc_cases c) as (H1 & H2 & H3).
    destruct (Rlt_dec c 80) as [Ha | Ha];
      [| destruct (Rlt_dec c 160) as [Hb | Hb]].
    + rewrite H1 by lra; split; [| split].
      * simpl; auto.
      * repeat (apply Forall_cons; [| try apply Forall_nil]); unfold forward; simpl.
        rewrite Hstart, speed_angle_dial; apply dial_monotone; lra.
      * exists 1%nat; reflexivity.
    + rewrite H2 by lra; split; [| split].
      * simpl; auto.
      * repeat (apply Forall_cons; [| try apply Forall_nil]); unfold forward; simpl;
          rewrite ?Hstart, !speed_angle_dial; apply dial_monotone; lra.
      * exists 2%nat; reflexivity.
    + rewrite H3 by lra; split; [| split].
      * simpl; auto.
      * repeat (apply Forall_cons; [| try apply Forall_nil]); unfold forward; simpl;
          rewrite ?Hstart, !speed_angle_dial; apply dial_monotone; lra.
      * exists 3%nat; reflexivity.
  - intros c.
    assert (Hc : 0 <= c <= 8000)
      by (unfold c; rewrite clamped_rpm_spec; apply spec_clamp_range; lra).
    assert (Hstart : Tachometer.start_angle = dial 8000 0)
      by (rewrite dial_zero by lra; unfold Tachometer.start_angle, M_PI; lra).
    destruct (Tachometer_arc_cases c) as (H1 & H2 & H3).
    destruct (Rlt_dec c 4000) as [Ha | Ha];
      [| destruct (Rlt_dec c 6000) as [Hb | Hb]].
    + rewrite H1 by lra; split; [| split].
      * simpl; auto.
      * repeat (apply Forall_cons; [| try apply Forall_nil]); unfold forward; simpl.
        rewrite Hstart, rpm_angle_dial; apply dial_monotone; lra.
      * exists 1%nat; reflexivity.
    + rewrite H2 by lra; split; [| split].
      * simpl; auto.
      * repeat (apply Forall_cons; [| try apply Forall_nil]); unfold forward; simpl;
          rewrite ?Hstart, !rpm_angle_dial; apply dial_monotone; lra.
      * exists 2%nat; reflexivity.
    + rewrite H3 by lra; split; [| split].
      * simpl; auto.
      * repeat (apply Forall_cons; [| try apply Forall_nil]); unfold forward; simpl;
          rewrite ?Hstart, !rpm_angle_dial; apply dial_monotone; lra.
      * exists 3%nat; reflexivity.
Qed.

(** X5: on the fuel gauge the segments lead from the needle to the empty
    end of the scale, and the last one drawn is always green.  For a level
    of 75 or less that green segment runs backward, from the 75 mark at
    [PI / 4] down to [- PI / 2], and every segment drawn before it lies
    within the angles it sweeps. *)
Theorem fuel_arc_always_ends_green :
  forall v : R,
    let c := FuelGauge.clamped_fuel v in
    chained (FuelGauge.arc c) (FuelGauge.fuel_angle c) FuelGauge.end_angle
    /\ last (zones (FuelGauge.arc c)) Red = Green
    /\ (c <= 75 ->
        last (FuelGauge.arc c) (MkSegment Red 0 0)
        = MkSegment Green (FuelGauge.fuel_angle 75) FuelGauge.end_angle
        /\ FuelGauge.fuel_angle 75 = PI / 4
        /\ FuelGauge.end_angle = - PI / 2
        /\ Forall (within (- PI / 2) (PI / 4)) (FuelGauge.arc c)).
Proof.
  intros v c.
  pose proof PI_RGT_0 as Hpi.
  assert (Hc : 0 <= c <= 100)
    by (unfold c; rewrite clamped_fuel_spec; apply spec_clamp_range; lra).
  assert (H75 : FuelGauge.fuel_angle 75 = PI / 4)
    by (rewrite fuel_angle_dial; unfold dial; lra).
  assert (H25 : FuelGauge.fuel_angle 25 = - PI / 4)
    by (rewrite fuel_angle_dial; unfold dial; lra).
  assert (Hend : FuelGauge.end_angle = - PI / 2)
    by (unfold FuelGauge.end_angle, M_PI; lra).
  assert (Hlo : - PI / 2 <= FuelGauge.fuel_angle c).
  { rewrite fuel_angle_dial, <- (dial_zero 100) by lra.
    apply dial_monotone; lra. }
  destruct (FuelGauge_arc_cases c) as (H1 & H2 & H3).
  destruct (Rlt_dec 75 c) as [Ha | Ha];
    [| destruct (Rlt_dec 25 c) as [Hb | Hb]].
  - rewrite H1 by lra; repeat split; simpl; auto; lra.
  - assert (Hup : FuelGauge.fuel_angle c <= PI / 4).
    { rewrite <- H75, !fuel_angle_dial; apply dial_monotone; lra. }
    rewrite H2 by lra; split; [simpl; auto |].
    split; [reflexivity |].
    intros _; split; [reflexivity |].
    split; [exact H75 |].
    split; [exact Hend |].
    repeat (apply Forall_cons; [| try apply Forall_nil]); unfold within; simpl; rewrite ?H75, ?Hend; lra.
  - assert (Hup : FuelGauge.fuel_angle c <= - PI / 4).
    { rewrite <- H25, !fuel_angle_dial; apply dial_monotone; lra. }
    rewrite H3 by lra; split; [simpl; auto |].
    split; [reflexivity |].
    intros _; split; [reflexivity |].
    split; [exact H75 |].
    split; [exact Hend |].
    repeat (apply Forall_cons; [| try apply Forall_nil]); unfold within; simpl; rewrite ?H75, ?H25, ?Hend; lra.
Qed.

Lemma fuel_arc_always_ends_green_witness :
  FuelGauge.clamped_fuel 10 <= 75
  /\ last (FuelGauge.arc (FuelGauge.clamped_fuel 10)) (MkSegment Red 0 0)
     = MkSegment Green (FuelGauge.fuel_angle 75) FuelGauge.end_angle.
Proof.
  assert (H : FuelGauge.clamped_fuel 10 <= 75)
    by (rewrite clamped_fuel_spec; unfold spec_clamp; by_cases).
  split; [exact H |].
  apply (fuel_arc_always_ends_green 10); exact H.
Defined.

(** ** The snapshot along a sequence of calls *)

Lemma sampled_ranges (v0 v1 v2 fuel : R) :
  0 <= speed (sampled v0 v1 v2 fuel)
  /\ 0 <= rpm (sampled v0 v1 v2 fuel) <= 8000
  /\ 0 <= fuel_level (sampled v0 v1 v2 fuel)
  /\ (fuel <= 100 -> fuel_level (sampled v0 v1 v2 fuel) <= 100).
Proof.
  unfold sampled; simpl.
  pose proof (sqrt_pos (v0 * v0 + v1 * v1 + v2 * v2)) as Hs.
  split; [lra |].
  split; [apply spec_clamp_range; lra |].
  split; [| intros H]; by_cases.
Qed.

Lemma call_snapshot (c : Call) (this : Dashboard) (e : Env) :
  call_ready c = true -> consistent this ->
  exists this' e',
    call c this e = Some (this', e')
    /\ consistent this'
    /\ (samples c = false -> data_ this' = data_ this)
    /\ (samples c = true ->
        exists v0 v1 v2,
          data_ this' = sampled v0 v1 v2 (fuel_level (data_ this))).
Proof.
  intros Ha Hc; destruct c as [|model data|model data con rect]; simpl in *.
  - exists this, e; repeat split; auto; discriminate.
  - destruct (available_qvel data Ha) as (v0 & v1 & v2 & rest & Hq).
    do 2 eexists; split; [apply (UpdateData_eq _ _ _ _ _ _ _ _ Hq) |].
    split; [| split; [discriminate | intros _; now exists v0, v1, v2]].
    destruct Hc as [(Hs & Ht & Hf) | (id & con0 & rect0 & vs & vt & vf
                                      & Hs & Ht & Hf)];
      rewrite Hs, Ht, Hf.
    + left; repeat split.
    + right; exists id, con0, rect0; do 3 eexists; repeat split.
  - destruct (available_qvel data Ha) as (v0 & v1 & v2 & rest & Hq).
    destruct Hc as [Hu | (id & con0 & rect0 & vs & vt & vf & Hb)].
    + do 2 eexists; split; [apply (Render_first _ _ _ _ _ _ _ _ _ _ Hq Hu) |].
      split; [| split; [discriminate | intros _; now exists v0, v1, v2]].
      right; exists (allocated e), con, rect, 0.0, 0.0, 0.0; repeat split.
    + do 2 eexists;
        split; [apply (Render_later _ _ _ _ _ _ _ _ _ _ _ _ _ Hq Hb) |].
      split; [| split; [discriminate | intros _; now exists v0, v1, v2]].
      right; exists id, con0, rect; do 3 eexists; repeat split.
Qed.

Lemma calls_snapshot (cs : list Call) :
  forall (this : Dashboard) (e : Env),
    all_available cs = true -> consistent this ->
    snapshot_in_range (data_ this) ->
    exists this' e',
      calls cs this e = Some (this', e')
      /\ consistent this'
      /\ snapshot_in_range (data_ this')
      /\ fuel_level (data_ this')
         = Rmax (fuel_level (data_ this) - 0.001 * INR (samplings cs)) 0.
Proof.
  induction cs as [|c cs IH]; intros this e Ha Hc Hr.
  - exists this, e; repeat split; auto; try apply Hr.
    destruct Hr as (_ & _ & Hf); unfold samplings; simpl; by_cases.
  - simpl in Ha; apply andb_true_iff in Ha; destruct Ha as [Hac Hacs].
    destruct (call_snapshot c this e Hac Hc)
      as (d & e1 & Hcall & Hc1 & Hsame & Hnew).
    assert (Hr1 : snapshot_in_range (data_ d)
                  /\ fuel_level (data_ d)
                     = Rmax (fuel_level (data_ this)
                             - 0.001 * (if samples c then 1 else 0)) 0).
    { destruct Hr as (Hs & Hrpm & Hf).
      destruct (samples c) eqn:Es.
      - destruct (Hnew eq_refl) as (v0 & v1 & v2 & ->).
        destruct (sampled_ranges v0 v1 v2 (fuel_level (data_ this)))
          as (A & B & C & D).
        split; [repeat split; try lra; apply D; lra |].
        simpl; by_cases.
      - rewrite (Hsame eq_refl); split; [repeat split; lra | by_cases]. }
    destruct Hr1 as [Hr1 Hf1].
    destruct (IH d e1 Hacs Hc1 Hr1) as (d' & e' & Hcalls & Hc' & Hr' & Hf').
    exists d', e'; simpl; unfold bind; rewrite Hcall.
    split; [exact Hcalls |].
    split; [exact Hc' |].
    split; [exact Hr' |].
    rewrite Hf', Hf1; unfold samplings; simpl.
    pose proof (pos_INR (List.length (filter samples cs))) as Hk.
    destruct Hr as (_ & _ & Hf).
    destruct (samples c); cbn [List.length]; rewrite ?S_INR; by_cases.
Qed.

Lemma snapshot_new : snapshot_in_range (data_ Dashboard_new).
Proof. unfold snapshot_in_range; simpl; lra. Qed.

(** X6: whatever sequence of calls a controller has received, its snapshot
    is within the ranges of the dials: the speed is not negative, the rpm
    is in [[0, 8000]] and the fuel level in [[0, 100]]. *)
Theorem snapshot_always_in_range :
  forall (cs : list Call) (n : nat),
    all_available cs = true ->
    exists d e,
      calls cs Dashboard_new (Env0 n) = Some (d, e)
      /\ 0 <= speed (data_ d)
      /\ 0 <= rpm (data_ d) <= 8000
      /\ 0 <= fuel_level (data_ d) <= 100.
Proof.
  intros cs n Ha.
  destruct (calls_snapshot cs Dashboard_new (Env0 n) Ha
              (or_introl unbuilt_new) snapshot_new)
    as (d & e & Hc & _ & Hr & _).
  exists d, e; split; [exact Hc | exact Hr].
Qed.

Lemma snapshot_always_in_range_witness :
  let cs := [CallInitialize;
             CallRender (Model 0) (MkData [30; 40; 0] []) None
               (MkRect 0 0 800 600);
             CallUpdateData (Model 0) (MkData [0; 0; 0] [])] in
  all_available cs = true
  /\ exists d e,
      calls cs Dashboard_new (Env0 0) = Some (d, e)
      /\ 0 <= speed (data_ d)
      /\ 0 <= rpm (data_ d) <= 8000
      /\ 0 <= fuel_level (data_ d) <= 100.
Proof.
  intros cs; split; [reflexivity |].
  apply (snapshot_always_in_range cs 0); reflexivity.
Defined.

(** X7: after a sequence of calls that ran the sampler [k] times, a new
    controller holds the fuel level [max(100 - 0.001 k, 0)]: the level is
    positive during the first 100000 runs and 0 from then on. *)
Theorem fuel_level_closed_form :
  forall (cs : list Call) (n : nat),
    all_available cs = true ->
    exists d e,
      calls cs Dashboard_new (Env0 n) = Some (d, e)
      /\ fuel_level (data_ d) = Rmax (100 - 0.001 * INR (samplings cs)) 0
      /\ (INR (samplings cs) < 100000 -> 0 < fuel_level (data_ d))
      /\ (100000 <= INR (samplings cs) -> fuel_level (data_ d) = 0).
Proof.
  intros cs n Ha.
  destruct (calls_snapshot cs Dashboard_new (Env0 n) Ha
              (or_introl unbuilt_new) snapshot_new)
    as (d & e & Hc & _ & _ & Hf).
  exists d, e; split; [exact Hc |].
  simpl in Hf; rewrite Hf.
  split; [f_equal; lra |].
  split; intros H; by_cases.
Qed.

Lemma fuel_level_closed_form_witness :
  let cs := [CallUpdateData (Model 0) (MkData [0; 0; 0] []);
             CallUpdateData (Model 0) (MkData [0; 0; 0] [])] in
  all_available cs = true
  /\ exists d e,
      calls cs Dashboard_new (Env0 0) = Some (d, e)
      /\ fuel_level (data_ d) = Rmax (100 - 0.001 * INR (samplings cs)) 0
      /\ (INR (samplings cs) < 100000 -> 0 < fuel_level (data_ d))
      /\ (100000 <= INR (samplings cs) -> fuel_level (data_ d) = 0).
Proof.
  intros cs; split; [reflexivity |].
  apply (fuel_level_closed_form cs 0); reflexivity.
Defined.

(** ** One run of the sampler *)

(** X8: the speed that the sampler stores is never negative, so the lower
    bound of its rpm clamp is never used: the rpm stored is
    [min(100 speed, 8000)], that is 100 times the speed up to 80 km/h and
    8000 from there on. *)
Theorem rpm_saturates_at_80 :
  forall (model : mjModel) (data : mjData) (this : Dashboard) (e : Env),
    available data = true ->
    exists d,
      Dashboard.UpdateData model data this e = Some (d, e)
      /\ 0 <= speed (data_ d)
      /\ rpm (data_ d) = Rmin (speed (data_ d) * 100) 8000
      /\ (speed (data_ d) <= 80 -> rpm (data_ d) = speed (data_ d) * 100)
      /\ (80 <= speed (data_ d) -> rpm (data_ d) = 8000).
Proof.
  intros model data this e Ha.
  destruct (available_qvel data Ha) as (v0 & v1 & v2 & rest & Hq).
  eexists; split; [apply (UpdateData_eq _ _ _ _ _ _ _ _ Hq) |].
  destruct (sampled_ranges v0 v1 v2 (fuel_level (data_ this))) as (Hs & _).
  cbn [data_]; split; [exact Hs |].
  revert Hs; unfold sampled; cbn [speed rpm].
  generalize (mju_norm3 (v0, v1, v2) * 3.6); intros s Hs.
  unfold spec_rpm, spec_clamp; repeat split; try intros H; by_cases.
Qed.

Lemma rpm_saturates_at_80_witness :
  available (MkData [30; 40; 0] []) = true
  /\ exists d,
      Dashboard.UpdateData (Model 0) (MkData [30; 40; 0] []) Dashboard_new
        (Env0 0) = Some (d, Env0 0)
      /\ 0 <= speed (data_ d)
      /\ rpm (data_ d) = Rmin (speed (data_ d) * 100) 8000
      /\ (speed (data_ d) <= 80 -> rpm (data_ d) = speed (data_ d) * 100)
      /\ (80 <= speed (data_ d) -> rpm (data_ d) = 8000).
Proof.
  split; [reflexivity |].
  apply (rpm_saturates_at_80 (Model 0) (MkData [30; 40; 0] [])
           Dashboard_new (Env0 0)); reflexivity.
Defined.

(** X9: once the widgets exist, every call that runs the sampler leaves
    each widget holding exactly the value of the snapshot stored by that
    call. *)
Theorem widgets_follow_the_snapshot :
  forall (c : Call) (this : Dashboard) (e : Env) (id : nat)
         (con : option mjrContext) (rect : mjrRect),
    samples c = true ->
    call_ready c = true ->
    widgets_at this id con rect ->
    exists this' e' s t f,
      call c this e = Some (this', e')
      /\ built this' s t f
      /\ speed_ (obj_val s) = speed (data_ this')
      /\ rpm_ (obj_val t) = rpm (data_ this')
      /\ fuel_level_ (obj_val f) = fuel_level (data_ this').
Proof.
  intros c this e id con rect Hs Ha (vs & vt & vf & Hb).
  destruct c as [|model data|model data con' rect']; simpl in *;
    [discriminate | |];
    destruct (available_qvel data Ha) as (v0 & v1 & v2 & rest & Hq).
  - do 5 eexists; split; [apply (UpdateData_eq _ _ _ _ _ _ _ _ Hq) |].
    destruct Hb as (Hs' & Ht' & Hf'); rewrite Hs', Ht', Hf'.
    split; [repeat split |]; repeat split.
  - do 5 eexists.
    split; [apply (Render_later _ _ _ _ _ _ _ _ _ _ _ _ _ Hq Hb) |].
    split; [repeat split |]; repeat split.
Qed.

Lemma widgets_follow_the_snapshot_witness :
  let this :=
    {| data_ := data_ Dashboard_new;
       Dashboard_mjr_context_ := None;
       speedometer_ :=
         Some (MkObj 0 (update 0 (first_speedometer None (MkRect 0 0 8 6))));
       tachometer_ :=
         Some (MkObj 1 (update 0 (first_tachometer None (MkRect 0 0 8 6))));
       fuel_gauge_ :=
         Some (MkObj 2 (update 0 (first_fuel_gauge None (MkRect 0 0 8 6))))
    |} in
  let c := CallUpdateData (Model 0) (MkData [3; 4; 0] []) in
  samples c = true /\ call_ready c = true
  /\ widgets_at this 0 None (MkRect 0 0 8 6)
  /\ exists this' e' s t f,
      call c this (Env0 3) = Some (this', e')
      /\ built this' s t f
      /\ speed_ (obj_val s) = speed (data_ this')
      /\ rpm_ (obj_val t) = rpm (data_ this')
      /\ fuel_level_ (obj_val f) = fuel_level (data_ this').
Proof.
  intros this c.
  assert (Hw : widgets_at this 0 None (MkRect 0 0 8 6))
    by (exists 0, 0, 0; repeat split).
  split; [reflexivity |].
  split; [reflexivity |].
  split; [exact Hw |].
  apply (widgets_follow_the_snapshot c this (Env0 3) 0 None (MkRect 0 0 8 6));
    [reflexivity | reflexivity | exact Hw].
Defined.

(** X10: on the values that the sampler stores, and so hands to the
    widgets, the clamps of the tachometer and of the fuel gauge change
    nothing, and the clamp of the speedometer only caps the speed at 240. *)
Theorem sampled_values_need_no_clamp :
  forall (model : mjModel) (data : mjData) (this : Dashboard) (e : Env),
    available data = true ->
    fuel_level (data_ this) <= 100 ->
    exists d,
      Dashboard.UpdateData model data this e = Some (d, e)
      /\ Tachometer.clamped_rpm (rpm (data_ d)) = rpm (data_ d)
      /\ FuelGauge.clamped_fuel (fuel_level (data_ d))
         = fuel_level (data_ d)
      /\ Speedometer.clamped_speed (speed (data_ d))
         = Rmin (speed (data_ d)) 240.
Proof.
  intros model data this e Ha Hf.
  destruct (available_qvel data Ha) as (v0 & v1 & v2 & rest & Hq).
  eexists; split; [apply (UpdateData_eq _ _ _ _ _ _ _ _ Hq) |].
  destruct (sampled_ranges v0 v1 v2 (fuel_level (data_ this)))
    as (Hs & Hr & Hf0 & Hf1).
  specialize (Hf1 Hf); cbn [data_].
  rewrite clamped_rpm_spec, clamped_fuel_spec, clamped_speed_spec.
  revert Hs Hr Hf0 Hf1.
  generalize (speed (sampled v0 v1 v2 (fuel_level (data_ this)))).
  generalize (rpm (sampled v0 v1 v2 (fuel_level (data_ this)))).
  generalize (fuel_level (sampled v0 v1 v2 (fuel_level (data_ this)))).
  intros f r s Hs Hr Hf0 Hf1.
  unfold spec_clamp; repeat split; by_cases.
Qed.

Lemma sampled_values_need_no_clamp_witness :
  available (MkData [30; 40; 0] []) = true
  /\ fuel_level (data_ Dashboard_new) <= 100
  /\ exists d,
      Dashboard.UpdateData (Model 0) (MkData [30; 40; 0] []) Dashboard_new
        (Env0 0) = Some (d, Env0 0)
      /\ Tachometer.clamped_rpm (rpm (data_ d)) = rpm (data_ d)
      /\ FuelGauge.clamped_fuel (fuel_level (data_ d))
         = fuel_level (data_ d)
      /\ Speedometer.clamped_speed (speed (data_ d))
         = Rmin (speed (data_ d)) 240.
Proof.
  split; [reflexivity |].
  assert (H : fuel_level (data_ Dashboard_new) <= 100) by (simpl; lra).
  split; [exact H |].
  apply (sampled_values_need_no_clamp (Model 0) (MkData [30; 40; 0] [])
           Dashboard_new (Env0 0)); [reflexivity | exact H].
Defined.

(** X11: [UpdateData] issues no host call and creates no object, and it
    changes neither the stored context nor the identity, position, size or
    context of any widget: of a widget it changes the stored value only. *)
Theorem UpdateData_touches_values_only :
  forall (model : mjModel) (data : mjData) (this : Dashboard) (e : Env),
    available data = true ->
    exists d,
      Dashboard.UpdateData model data this e = Some (d, e)
      /\ Dashboard_mjr_context_ d = Dashboard_mjr_context_ this
      /\ option_map obj_id (speedometer_ d)
         = option_map obj_id (speedometer_ this)
      /\ option_map obj_id (tachometer_ d)
         = option_map obj_id (tachometer_ this)
      /\ option_map obj_id (fuel_gauge_ d)
         = option_map obj_id (fuel_gauge_ this)
      /\ option_map (fun o => base (obj_val o)) (speedometer_ d)
         = option_map (fun o => base (obj_val o)) (speedometer_ this)
      /\ option_map (fun o => base (obj_val o)) (tachometer_ d)
         = option_map (fun o => base (obj_val o)) (tachometer_ this)
      /\ option_map (fun o => base (obj_val o)) (fuel_gauge_ d)
         = option_map (fun o => base (obj_val o)) (fuel_gauge_ this).
Proof.
  intros model data this e Ha.
  destruct (available_qvel data Ha) as (v0 & v1 & v2 & rest & Hq).
  eexists; split; [apply (UpdateData_eq _ _ _ _ _ _ _ _ Hq) |].
  cbn [Dashboard_mjr_context_ speedometer_ tachometer_ fuel_gauge_].
  destruct (speedometer_ this), (tachometer_ this), (fuel_gauge_ this);
    repeat split.
Qed.

Lemma UpdateData_touches_values_only_witness :
  available (MkData [30; 40; 0] []) = true
  /\ exists d,
      Dashboard.UpdateData (Model 0) (MkData [30; 40; 0] []) Dashboard_new
        (Env0 0) = Some (d, Env0 0)
      /\ Dashboard_mjr_context_ d = Dashboard_mjr_context_ Dashboard_new.
Proof.
  split; [reflexivity |].
  destruct (UpdateData_touches_values_only (Model 0)
              (MkData [30; 40; 0] []) Dashboard_new (Env0 0) eq_refl)
    as (d & H & Hc & _).
  exists d; split; [exact H | exact Hc].
Defined.

(** ** The context of the host calls *)

Ltac split_draws :=
  repeat match goal with
         | |- Forall _ (_ ++ _) => apply Forall_app; split
         end.

Lemma tiles_use_context (side : Z) (r g b a : R) (con : option mjrContext)
    (l : list DrawCall) :
  Forall (tile_of side r g b a) l -> Forall (uses_context con) l.
Proof.
  apply Forall_impl; intros c; destruct c; simpl; [trivial | contradiction].
Qed.

Lemma DrawCircle_uses_context (con con' : option mjrContext)
    (center_x center_y radius r g b a : R) :
  Forall (uses_context con) (DrawCircle center_x center_y radius r g b a con').
Proof. eapply tiles_use_context, DrawCircle_tiles. Qed.

Lemma DrawArc_uses_context (con con' : option mjrContext)
    (center_x center_y radius a0 a1 r g b a : R) :
  Forall (uses_context con)
    (DrawArc center_x center_y radius a0 a1 r g b a con').
Proof. eapply tiles_use_context, DrawArc_tiles. Qed.

Lemma DrawFilledCircle_uses_context (con con' : option mjrContext)
    (center_x center_y radius r g b a : R) :
  Forall (uses_context con)
    (DrawFilledCircle center_x center_y radius r g b a con').
Proof.
  unfold DrawFilledCircle.
  generalize (seq 0 (Z.to_nat (static_cast_int (radius / 2)))); intros idx.
  induction idx as [|i idx IH]; cbn [DrawFilledCircle_rings];
    [constructor |].
  destruct (Rltb (radius - INR i * 2) 0); [constructor |].
  apply Forall_app; split; [apply DrawCircle_uses_context | exact IH].
Qed.

Lemma draw_segment_uses_context (con con' : option mjrContext)
    (center_x center_y radius : R) (segs : list Segment) :
  Forall (uses_context con)
    (flat_map (draw_segment center_x center_y radius con') segs).
Proof.
  apply Forall_flat_map, Forall_forall; intros s _.
  unfold draw_segment; destruct (seg_zone s); apply DrawArc_uses_context.
Qed.

Lemma draw_needle_uses_context (con : option mjrContext)
    (center_x center_y needle_x needle_y half : R) (n : nat) (side : Z) :
  Forall (uses_context con)
    (draw_needle center_x center_y needle_x needle_y n half side).
Proof.
  unfold draw_needle; apply Forall_forall; intros c Hc.
  apply in_map_iff in Hc; destruct Hc as (i & <- & _); exact I.
Qed.

Lemma draw_background_uses_context (con con' : option mjrContext)
    (center_x center_y radius : R) :
  Forall (uses_context con) (draw_background center_x center_y radius con').
Proof.
  unfold draw_background; split_draws;
    auto using DrawFilledCircle_uses_context, DrawCircle_uses_context.
Qed.

Lemma draw_hub_uses_context (con : option mjrContext)
    (center_x center_y radius hub : R) (readout : Text)
    (unit_name gauge_name : string) :
  Forall (uses_context con)
    (draw_hub center_x center_y radius hub readout unit_name gauge_name con).
Proof.
  unfold draw_hub; split_draws;
    auto using DrawFilledCircle_uses_context, DrawCircle_uses_context.
  repeat (apply Forall_cons; [reflexivity |]); apply Forall_nil.
Qed.

Lemma Speedometer_output_uses_context (w : Speedometer) :
  Forall (uses_context (mjr_context_ (base w))) (Speedometer_output w).
Proof.
  unfold Speedometer_output.
  destruct (mjr_context_ (base w)) as [c|] eqn:Ec; [| constructor].
  simpl in Ec; unfold Speedometer.draw; rewrite Ec; split_draws;
    auto using draw_background_uses_context, draw_segment_uses_context,
      draw_needle_uses_context, draw_hub_uses_context.
  unfold Speedometer.scale; apply Forall_flat_map, Forall_forall; intros i _.
  unfold Speedometer.mark; apply Forall_cons; [exact I |].
  destruct (i mod 2 =? 0)%nat; repeat constructor.
Qed.

Lemma Tachometer_output_uses_context (w : Tachometer) :
  Forall (uses_context (mjr_context_ (base w))) (Tachometer_output w).
Proof.
  unfold Tachometer_output.
  destruct (mjr_context_ (base w)) as [c|] eqn:Ec; [| constructor].
  simpl in Ec; unfold Tachometer.draw; rewrite Ec; split_draws;
    auto using draw_background_uses_context, draw_segment_uses_context,
      draw_needle_uses_context, draw_hub_uses_context.
  unfold Tachometer.scale; apply Forall_flat_map, Forall_forall; intros i _.
  unfold Tachometer.mark; repeat constructor.
Qed.

Lemma FuelGauge_output_uses_context (w : FuelGauge) :
  Forall (uses_context (mjr_context_ (base w))) (FuelGauge_output w).
Proof.
  unfold FuelGauge_output.
  destruct (mjr_context_ (base w)) as [c|] eqn:Ec; [| constructor].
  simpl in Ec; unfold FuelGauge.draw; rewrite Ec; split_draws;
    auto using draw_background_uses_context, draw_segment_uses_context,
      draw_needle_uses_context, draw_hub_uses_context.
  unfold FuelGauge.scale; apply Forall_flat_map, Forall_forall; intros i _.
  unfold FuelGauge.mark; apply Forall_cons; [exact I |].
  destruct (i mod 2 =? 0)%nat; repeat constructor.
Qed.

Lemma renders_frame (frs : list Frame) :
  forall (this : Dashboard) (e : Env) (id : nat) (con : option mjrContext)
         (now_ : Frame),
    frames_available frs = true ->
    widgets_at this id con (frame_rect now_) ->
    exists this' e' out,
      calls (map render_call frs) this e = Some (this', e')
      /\ frame e' = frame e ++ out
      /\ Forall (uses_context con) out
      /\ (con = None -> out = []).
Proof.
  induction frs as [|fr frs IH]; intros this e id con now_ Ha Hw.
  - exists this, e, []; repeat split; auto; now rewrite app_nil_r.
  - simpl in Ha; apply andb_true_iff in Ha; destruct Ha as [Hfr Hfrs].
    destruct (available_qvel _ Hfr) as (v0 & v1 & v2 & rest & Hq).
    destruct Hw as (vs & vt & vf & Hb).
    pose proof (Render_later (frame_model fr) (frame_data fr)
                  (frame_context fr) (frame_rect fr) this e v0 v1 v2 rest
                  _ _ _ Hq Hb) as Hr.
    cbv zeta in Hr.
    match type of Hr with
    | _ = Some (?d, drawn (Speedometer_output ?s ++ Tachometer_output ?t
                           ++ FuelGauge_output ?f) _) =>
        assert (Hw1 : widgets_at d id con (frame_rect fr))
          by (do 3 eexists; repeat split);
        pose proof (Speedometer_output_uses_context s) as Us;
        pose proof (Tachometer_output_uses_context t) as Ut;
        pose proof (FuelGauge_output_uses_context f) as Uf;
        assert (Ns : con = None -> Speedometer_output s = [])
          by (intros ->; reflexivity);
        assert (Nt : con = None -> Tachometer_output t = [])
          by (intros ->; reflexivity);
        assert (Nf : con = None -> FuelGauge_output f = [])
          by (intros ->; reflexivity);
        change (mjr_context_ (base s)) with con in Us;
        change (mjr_context_ (base t)) with con in Ut;
        change (mjr_context_ (base f)) with con in Uf;
        set (out1 := Speedometer_output s ++ Tachometer_output t
                     ++ FuelGauge_output f) in *
    end.
    destruct (IH _ (drawn out1 e) id con fr Hfrs Hw1)
      as (d' & e' & out & Hcs & Hfe & Hu & Hn).
    exists d', e', (out1 ++ out); simpl; unfold bind; rewrite Hr.
    split; [exact Hcs |].
    split; [rewrite Hfe; unfold drawn; simpl; now rewrite app_assoc |].
    split.
    + apply Forall_app; split; [| exact Hu].
      unfold out1; split_draws; assumption.
    + intros Hc; rewrite (Hn Hc); unfold out1.
      now rewrite (Ns Hc), (Nt Hc), (Nf Hc).
Qed.

Lemma first_render_frame (first : Frame) (e : Env) :
  available (frame_data first) = true ->
  exists d1 e1 out,
    call (render_call first) Dashboard_new e = Some (d1, e1)
    /\ widgets_at d1 (allocated e) (frame_context first) (frame_rect first)
    /\ frame e1 = frame e ++ out
    /\ Forall (uses_context (frame_context first)) out
    /\ (frame_context first = None -> out = []).
Proof.
  intros Ha.
  destruct (available_qvel _ Ha) as (v0 & v1 & v2 & rest & Hq).
  pose proof (Render_first (frame_model first) (frame_data first)
                (frame_context first) (frame_rect first) Dashboard_new e
                v0 v1 v2 rest Hq unbuilt_new) as Hr.
  cbv zeta in Hr.
  do 3 eexists; split; [exact Hr |].
  split; [exists 0.0, 0.0, 0.0; repeat split |].
  split; [reflexivity |].
  split.
  - split_draws.
    + apply (Speedometer_output_uses_context
               (first_speedometer (frame_context first) (frame_rect first))).
    + apply (Tachometer_output_uses_context
               (first_tachometer (frame_context first) (frame_rect first))).
    + apply (FuelGauge_output_uses_context
               (first_fuel_gauge (frame_context first) (frame_rect first))).
  - intros Hc; rewrite Hc; reflexivity.
Qed.

(** X12: a controller whose first [Render] was made with a null context
    never issues a host call afterwards, whatever context the later
    [Render] calls bring: its widgets keep the null context they were built
    with. *)
Theorem null_first_context_silences_the_dashboard :
  forall (first : Frame) (later : list Frame) (e : Env),
    frame_context first = None ->
    frames_available (first :: later) = true ->
    exists d e',
      calls (map render_call (first :: later)) Dashboard_new e = Some (d, e')
      /\ frame e' = frame e.
Proof.
  intros first later e Hnull Ha.
  simpl in Ha; apply andb_true_iff in Ha; destruct Ha as [Hf Hl].
  destruct (first_render_frame first e Hf)
    as (d1 & e1 & out1 & Hr & Hw & Hf1 & _ & Hn1).
  destruct (renders_frame later d1 e1 _ _ first Hl Hw)
    as (d & e' & out & Hcs & Hfe & _ & Hn).
  exists d, e'; split.
  - cbn [map calls]; unfold bind; rewrite Hr; exact Hcs.
  - rewrite Hfe, Hf1, (Hn1 Hnull), (Hn Hnull), !app_nil_r; reflexivity.
Qed.

Lemma null_first_context_silences_the_dashboard_witness :
  let f1 := MkFrame (Model 0) (MkData [3; 4; 0] []) None
              (MkRect 0 0 800 600) in
  let f2 := MkFrame (Model 0) (MkData [3; 4; 0] []) (Some (Context 7))
              (MkRect 0 0 800 600) in
  frame_context f1 = None
  /\ frames_available [f1; f2] = true
  /\ exists d e',
      calls (map render_call [f1; f2]) Dashboard_new (Env0 0) = Some (d, e')
      /\ frame e' = frame (Env0 0).
Proof.
  intros f1 f2; split; [reflexivity |].
  split; [reflexivity |].
  apply (null_first_context_silences_the_dashboard f1 [f2] (Env0 0));
    reflexivity.
Defined.

(** X13: every [mjr_text] call that a controller issues, on whatever
    frame, is made with the context of its first [Render]; and since
    nothing at all is drawn when that context is null, no text call is
    ever made with a null context. *)
Theorem text_calls_use_the_first_context :
  forall (first : Frame) (later : list Frame) (e : Env),
    frames_available (first :: later) = true ->
    exists d e' out,
      calls (map render_call (first :: later)) Dashboard_new e = Some (d, e')
      /\ frame e' = frame e ++ out
      /\ Forall (uses_context (frame_context first)) out
      /\ (existsb is_text out = true -> frame_context first <> None).
Proof.
  intros first later e Ha.
  simpl in Ha; apply andb_true_iff in Ha; destruct Ha as [Hf Hl].
  destruct (first_render_frame first e Hf)
    as (d1 & e1 & out1 & Hr & Hw & Hf1 & Hu1 & Hn1).
  destruct (renders_frame later d1 e1 _ _ first Hl Hw)
    as (d & e' & out & Hcs & Hfe & Hu & Hn).
  exists d, e', (out1 ++ out); split.
  { cbn [map calls]; unfold bind; rewrite Hr; exact Hcs. }
  split; [rewrite Hfe, Hf1; now rewrite app_assoc |].
  split; [apply Forall_app; now split |].
  intros Ht Hnull; rewrite (Hn1 Hnull), (Hn Hnull) in Ht; discriminate.
Qed.

Lemma text_calls_use_the_first_context_witness :
  let f1 := MkFrame (Model 0) (MkData [3; 4; 0] []) (Some (Context 1))
              (MkRect 0 0 800 600) in
  let f2 := MkFrame (Model 0) (MkData [3; 4; 0] []) None
              (MkRect 0 0 800 600) in
  frames_available [f1; f2] = true
  /\ exists d e' out,
      calls (map render_call [f1; f2]) Dashboard_new (Env0 0) = Some (d, e')
      /\ frame e' = frame (Env0 0) ++ out
      /\ Forall (uses_context (frame_context f1)) out
      /\ (existsb is_text out = true -> frame_context f1 <> None).
Proof.
  intros f1 f2; split; [reflexivity |].
  apply (text_calls_use_the_first_context f1 [f2] (Env0 0)); reflexivity.
Defined.

(** ** The layout *)

(** X14: after every [Render] the three gauges stand in one row, the
    tachometer left and the fuel gauge right of the speedometer with 20
    between their rims; the speedometer is centred on half the width and,
    100 lower, half the height of the frame rectangle, whose origin plays
    no part. *)
Theorem gauges_stand_in_a_row :
  forall (model : mjModel) (data : mjData) (con : option mjrContext)
         (rect : mjrRect) (this : Dashboard) (e : Env),
    available data = true ->
    consistent this ->
    exists this' e' s t f,
      Dashboard.Render model data con rect this e = Some (this', e')
      /\ built this' s t f
      /\ x_ (base (obj_val s)) = IZR (rect_width rect) / 2
      /\ y_ (base (obj_val s)) = IZR (rect_height rect) / 2 - 100
      /\ y_ (base (obj_val t)) = y_ (base (obj_val s))
      /\ y_ (base (obj_val f)) = y_ (base (obj_val s))
      /\ x_ (base (obj_val s)) - x_ (base (obj_val t))
         = width_ (base (obj_val s)) + width_ (base (obj_val t)) + 20
      /\ x_ (base (obj_val f)) - x_ (base (obj_val s))
         = width_ (base (obj_val s)) + width_ (base (obj_val f)) + 20.
Proof.
  intros model data con rect this e Ha Hc.
  destruct (available_qvel data Ha) as (v0 & v1 & v2 & rest & Hq).
  destruct Hc as [Hu | (id & con0 & rect0 & vs & vt & vf & Hb)].
  - do 5 eexists.
    split; [apply (Render_first _ _ _ _ _ _ _ _ _ _ Hq Hu) |].
    split; [repeat split |].
    cbn; unfold Dashboard.speedometer_x, Dashboard.speedometer_y,
      Dashboard.tachometer_x, Dashboard.tachometer_y,
      Dashboard.fuel_gauge_x, Dashboard.fuel_gauge_y, Dashboard.center_x,
      Dashboard.center_y, Dashboard.speedometer_radius,
      Dashboard.small_gauge_radius.
    repeat split; lra.
  - do 5 eexists.
    split; [apply (Render_later _ _ _ _ _ _ _ _ _ _ _ _ _ Hq Hb) |].
    split; [repeat split |].
    cbn; unfold Dashboard.speedometer_x, Dashboard.speedometer_y,
      Dashboard.tachometer_x, Dashboard.tachometer_y,
      Dashboard.fuel_gauge_x, Dashboard.fuel_gauge_y, Dashboard.center_x,
      Dashboard.center_y, Dashboard.speedometer_radius,
      Dashboard.small_gauge_radius.
    repeat split; lra.
Qed.

Lemma gauges_stand_in_a_row_witness :
  available (MkData [3; 4; 0] []) = true
  /\ consistent Dashboard_new
  /\ exists this' e' s t f,
      Dashboard.Render (Model 0) (MkData [3; 4; 0] []) None
        (MkRect 5 7 800 600) Dashboard_new (Env0 0) = Some (this', e')
      /\ built this' s t f
      /\ x_ (base (obj_val s)) = IZR 800 / 2
      /\ y_ (base (obj_val s)) = IZR 600 / 2 - 100.
Proof.
  assert (Hc : consistent Dashboard_new) by (left; repeat split).
  split; [reflexivity |].
  split; [exact Hc |].
  destruct (gauges_stand_in_a_row (Model 0) (MkData [3; 4; 0] []) None
              (MkRect 5 7 800 600) Dashboard_new (Env0 0) eq_refl Hc)
    as (d & e' & s & t & f & H & Hb & Hx & Hy & _).
  exists d, e', s, t, f; repeat split; auto; apply Hb.
Defined.

(** ** The goal task *)

Lemma mju_norm3_pos (v : R * R * R) : 0 <= mju_norm3 v.
Proof. destruct v as [[a b] c]; apply sqrt_pos. Qed.

(** X15: when the position of the car body can be read, or the scene is
    full, [ModifyScene] has a result, which is the scene it was given or
    that scene with exactly one geom appended: a label showing a speed
    that is not negative in m/s and 3.6 times that in km/h.  The geoms
    already there are kept, a scene within its capacity stays within it,
    and a full scene is left as it was without the position being read. *)
Theorem ModifyScene_appends_at_most_one_label :
  forall (mj_name2id : mjModel -> mjtObj -> string -> Z)
         (SensorByName : mjModel -> mjData -> string -> option (R * R * R))
         (model : mjModel) (data : mjData) (scene : mjvScene),
    (maxgeom scene <= ngeom scene)%Z
    \/ (3 * mj_name2id model mjOBJ_BODY "car"%string + 3
        <= Z.of_nat (List.length (xpos data)))%Z ->
    exists scene',
      ModifyScene mj_name2id SensorByName model data scene = Some scene'
      /\ maxgeom scene' = maxgeom scene
      /\ ((ngeom scene <= maxgeom scene)%Z ->
          (ngeom scene' <= maxgeom scene')%Z)
      /\ ((maxgeom scene <= ngeom scene)%Z -> scene' = scene)
      /\ (scene' = scene
          \/ exists g speed_ms,
               geoms scene' = geoms scene ++ [g]
               /\ ngeom scene' = (ngeom scene + 1)%Z
               /\ geom_type g = mjGEOM_LABEL
               /\ geom_label g = SpeedLabel speed_ms (speed_ms * 3.6)
               /\ 0 <= speed_ms).
Proof.
  intros mj_name2id SensorByName model data scene Hx.
  unfold ModifyScene.
  set (id := mj_name2id model mjOBJ_BODY "car"%string) in *.
  destruct (id <? 0)%Z eqn:Eid.
  { exists scene; repeat split; auto. }
  apply Z.ltb_ge in Eid.
  destruct (SensorByName model data "car_velocity"%string) as [v|].
  2:{ exists scene; repeat split; auto. }
  destruct (ngeom scene <? maxgeom scene)%Z eqn:En.
  2:{ exists scene; repeat split; auto. }
  apply Z.ltb_lt in En.
  destruct Hx as [Hfull | Hx]; [lia |].
  assert (Hlen : (Z.to_nat (3 * id) + 2 < List.length (xpos data))%nat)
    by lia.
  destruct (nth_error (xpos data) (Z.to_nat (3 * id))) as [p0|] eqn:E0;
    [| apply nth_error_None in E0; lia].
  destruct (nth_error (xpos data) (Z.to_nat (3 * id) + 1)) as [p1|] eqn:E1;
    [| apply nth_error_None in E1; lia].
  destruct (nth_error (xpos data) (Z.to_nat (3 * id) + 2)) as [p2|] eqn:E2;
    [| apply nth_error_None in E2; lia].
  eexists; split; [reflexivity |].
  cbn [maxgeom ngeom geoms]; split; [reflexivity |].
  split; [intros _; lia |].
  split; [intros Hfull; lia |].
  right; do 2 eexists; repeat split; apply mju_norm3_pos.
Qed.

Lemma ModifyScene_appends_at_most_one_label_witness :
  let name2id := fun (_ : mjModel) (_ : mjtObj) (_ : string) => 1%Z in
  let sensor := fun (_ : mjModel) (_ : mjData) (_ : string) =>
                  Some (3, 4, 0) in
  let data := MkData [0; 0; 0] [0; 0; 0; 5; 6; 7] in
  ((maxgeom (MkScene 0 10 []) <= ngeom (MkScene 0 10 []))%Z
   \/ (3 * name2id (Model 0) mjOBJ_BODY "car"%string + 3
       <= Z.of_nat (List.length (xpos data)))%Z)
  /\ exists scene',
      ModifyScene name2id sensor (Model 0) data (MkScene 0 10 [])
      = Some scene'
      /\ maxgeom scene' = 10%Z.
Proof.
  intros name2id sensor data.
  assert (H : (maxgeom (MkScene 0 10 []) <= ngeom (MkScene 0 10 []))%Z
              \/ (3 * name2id (Model 0) mjOBJ_BODY "car"%string + 3
                  <= Z.of_nat (List.length (xpos data)))%Z)
    by (right; simpl; lia).
  split; [exact H |].
  destruct (ModifyScene_appends_at_most_one_label name2id sensor (Model 0)
              data (MkScene 0 10 []) H) as (scene' & Hs & Hm & _).
  exists scene'; split; [exact Hs | exact Hm].
Defined.

(** X16: [Residual] has a result exactly when [qpos], [mocap_pos] and
    [ctrl] hold two numbers each and the buffer four.  It then writes the
    first four entries of the buffer (the car's offset from the goal in x
    and y, and the two controls) and leaves the rest of the buffer, its
    length and the environment as they were. *)
Theorem Residual_writes_four_entries :
  forall (model : mjModel) (data : mjGoalData) (residual : list R) (e : Env),
    (residual_ready data residual = false ->
     Residual model data residual e = None)
    /\ (residual_ready data residual = true ->
        exists q0 q1 qs g0 g1 gs c0 c1 cs,
          qpos data = q0 :: q1 :: qs
          /\ mocap_pos data = g0 :: g1 :: gs
          /\ ctrl data = c0 :: c1 :: cs
          /\ Residual model data residual e
             = Some ([q0 - g0; q1 - g1; c0; c1] ++ skipn 4 residual, e)
          /\ List.length ([q0 - g0; q1 - g1; c0; c1] ++ skipn 4 residual)
             = List.length residual).
Proof.
  intros model data residual e.
  unfold residual_ready, Residual.
  destruct (qpos data) as [|q0 [|q1 qs]];
    destruct (mocap_pos data) as [|g0 [|g1 gs]];
    destruct (ctrl data) as [|c0 [|c1 cs]];
    destruct residual as [|r0 [|r1 [|r2 [|r3 rs]]]];
    (split; intros H; [try reflexivity; discriminate | try discriminate]).
  exists q0, q1, qs, g0, g1, gs, c0, c1, cs; repeat split.
Qed.

Lemma Residual_writes_four_entries_witness :
  let data := MkGoalData [1; 2] [3; 5; 0] [7; 8] in
  residual_ready data [0; 0; 0; 0; 9] = true
  /\ exists q0 q1 qs g0 g1 gs c0 c1 cs,
      qpos data = q0 :: q1 :: qs
      /\ mocap_pos data = g0 :: g1 :: gs
      /\ ctrl data = c0 :: c1 :: cs
      /\ Residual (Model 0) data [0; 0; 0; 0; 9] (Env0 0)
         = Some ([q0 - g0; q1 - g1; c0; c1] ++ skipn 4 [0; 0; 0; 0; 9],
                 Env0 0)
      /\ List.length ([q0 - g0; q1 - g1; c0; c1] ++ skipn 4 [0; 0; 0; 0; 9])
         = List.length [0; 0; 0; 0; 9].
Proof.
  intros data; split; [reflexivity |].
  apply (Residual_writes_four_entries (Model 0) data [0; 0; 0; 0; 9]
           (Env0 0)); reflexivity.
Defined.

(** X17: [TransitionLocked] moves the goal exactly when the position part
    of the residual, the car's offset from the goal, is shorter than 0.2.
    Otherwise it leaves the data as they were.  When it moves the goal it
    stores the two numbers drawn and the height 0.01 as the first three
    entries of [mocap_pos], and changes nothing else. *)
Theorem TransitionLocked_moves_goal_within_tolerance :
  forall (uniform : R * R) (model : mjModel) (data : mjGoalData)
         (residual : list R) (e : Env) (r0 r1 : R) (rs : list R)
         (g0 g1 g2 : R) (gs : list R),
    Residual model data residual e = Some (r0 :: r1 :: rs, e) ->
    mocap_pos data = g0 :: g1 :: g2 :: gs ->
    (0.2 <= sqrt (r0 * r0 + r1 * r1) ->
     TransitionLocked uniform model data e = Some (data, e))
    /\ (sqrt (r0 * r0 + r1 * r1) < 0.2 ->
        TransitionLocked uniform model data e
        = Some ({| qpos := qpos data;
                   mocap_pos := fst uniform :: snd uniform :: 0.01 :: gs;
                   ctrl := ctrl data |}, e)).
Proof.
  intros uniform model data residual e r0 r1 rs g0 g1 g2 gs Hres Hm.
  unfold Residual in Hres; rewrite Hm in Hres; revert Hres.
  destruct (qpos data) as [|q0 [|q1 qs]] eqn:Hq;
    destruct (ctrl data) as [|c0 [|c1 cs]] eqn:Hc;
    destruct residual as [|x0 [|x1 [|x2 [|x3 xs]]]];
    intros Hres; try discriminate Hres.
  injection Hres as <- <- _.
  unfold TransitionLocked; rewrite ?Hq, ?Hm, ?Hc.
  unfold index, bind, ret; cbn [nth_error mju_norm2].
  replace ((g0 - q0) * (g0 - q0) + (g1 - q1) * (g1 - q1))
    with ((q0 - g0) * (q0 - g0) + (q1 - g1) * (q1 - g1)) by ring.
  split; intros H.
  - rewrite Rltb_false by lra; reflexivity.
  - rewrite Rltb_true by lra; reflexivity.
Qed.

Lemma TransitionLocked_moves_goal_within_tolerance_witness :
  let data := MkGoalData [1; 2] [1; 2; 0; 4] [0; 0] in
  Residual (Model 0) data [9; 9; 9; 9] (Env0 0)
  = Some ([1 - 1; 2 - 2; 0; 0], Env0 0)
  /\ mocap_pos data = [1; 2; 0; 4]
  /\ (sqrt ((1 - 1) * (1 - 1) + (2 - 2) * (2 - 2)) < 0.2 ->
      TransitionLocked (0.5, -1) (Model 0) data (Env0 0)
      = Some ({| qpos := qpos data;
                 mocap_pos := [0.5; -1; 0.01; 4];
                 ctrl := ctrl data |}, Env0 0)).
Proof.
  intros data.
  assert (Hr : Residual (Model 0) data [9; 9; 9; 9] (Env0 0)
               = Some ([1 - 1; 2 - 2; 0; 0], Env0 0)) by reflexivity.
  split; [exact Hr |].
  split; [reflexivity |].
  apply (TransitionLocked_moves_goal_within_tolerance (0.5, -1) (Model 0)
           data [9; 9; 9; 9] (Env0 0) (1 - 1) (2 - 2) [0; 0] 1 2 0 [4] Hr
           eq_refl).
Defined.

(** ** What a frame shows *)

(** X18: [Render] draws, after what was drawn before, exactly what one
    [render] of each widget it leaves behind draws, in the order
    speedometer, tachometer, fuel gauge; it creates three objects if the
    widgets did not exist and none otherwise. *)
Theorem Render_draws_its_widgets_in_order :
  forall (model : mjModel) (data : mjData) (con : option mjrContext)
         (rect : mjrRect) (this : Dashboard) (e : Env),
    available data = true ->
    consistent this ->
    exists this' e' s t f,
      Dashboard.Render model data con rect this e = Some (this', e')
      /\ built this' s t f
      /\ frame e' = frame e ++ Speedometer_output (obj_val s)
                    ++ Tachometer_output (obj_val t)
                    ++ FuelGauge_output (obj_val f)
      /\ (unbuilt this -> allocated e' = (3 + allocated e)%nat)
      /\ (~ unbuilt this -> allocated e' = allocated e).
Proof.
  intros model data con rect this e Ha Hc.
  destruct (available_qvel data Ha) as (v0 & v1 & v2 & rest & Hq).
  destruct Hc as [Hu | (id & con0 & rect0 & vs & vt & vf & Hb)].
  - do 5 eexists.
    split; [apply (Render_first _ _ _ _ _ _ _ _ _ _ Hq Hu) |].
    split; [repeat split |].
    split; [reflexivity |].
    split; [reflexivity | intros Hn; contradiction].
  - do 5 eexists.
    split; [apply (Render_later _ _ _ _ _ _ _ _ _ _ _ _ _ Hq Hb) |].
    split; [repeat split |].
    split; [reflexivity |].
    split; [| reflexivity].
    intros (Hs & _); destruct Hb as (Hs' & _); congruence.
Qed.

Lemma Render_draws_its_widgets_in_order_witness :
  available (MkData [3; 4; 0] []) = true
  /\ consistent Dashboard_new
  /\ exists this' e',
      Dashboard.Render (Model 0) (MkData [3; 4; 0] []) (Some (Context 0))
        (MkRect 0 0 800 600) Dashboard_new (Env0 0) = Some (this', e')
      /\ allocated e' = 3%nat.
Proof.
  assert (Hc : consistent Dashboard_new) by (left; repeat split).
  split; [reflexivity |].
  split; [exact Hc |].
  destruct (Render_draws_its_widgets_in_order (Model 0)
              (MkData [3; 4; 0] []) (Some (Context 0)) (MkRect 0 0 800 600)
              Dashboard_new (Env0 0) eq_refl Hc)
    as (d & e' & s & t & f & H & _ & _ & Hal & _).
  exists d, e'; split; [exact H |].
  apply Hal; repeat split.
Defined.

(** X19: an arc whose two angles are equal, as the segment of a zone is
    when the value sits exactly on its threshold, is still drawn: as 100
    copies of one and the same rectangle. *)
Theorem zero_length_arc_is_one_tile_100_times :
  forall (center_x center_y radius angle r g b a : R)
         (con : option mjrContext),
    DrawArc center_x center_y radius angle angle r g b a con
    = repeat
        (mjr_rectangle
           (segment_rect (center_x + radius * cos angle)
              (center_y + radius * sin angle) (radius * 0.05))
           r g b a)
        100.
Proof.
  intros center_x center_y radius angle r g b a con.
  unfold DrawArc.
  assert (Hmap : forall (l : list nat),
             map (fun i : nat =>
                    mjr_rectangle
                      (segment_rect
                         (center_x
                          + radius * cos (angle + INR i
                                                  * ((angle - angle)
                                                     / INR 100)))
                         (center_y
                          + radius * sin (angle + INR i
                                                  * ((angle - angle)
                                                     / INR 100)))
                         (radius * 0.05)) r g b a) l
             = repeat
                 (mjr_rectangle
                    (segment_rect (center_x + radius * cos angle)
                       (center_y + radius * sin angle) (radius * 0.05))
                    r g b a)
                 (List.length l)).
  { induction l as [|i l IH]; [reflexivity |].
    cbn [map List.length repeat]; rewrite IH; f_equal.
    replace (angle + INR i * ((angle - angle) / INR 100)) with angle;
      [reflexivity |].
    unfold Rminus; rewrite Rplus_opp_r; unfold Rdiv; rewrite Rmult_0_l.
    now rewrite Rmult_0_r, Rplus_0_r. }
  rewrite (Hmap (seq 0 100)), length_seq; reflexivity.
Qed.

Lemma no_text_in_tiles (side : Z) (r g b a : R) (l : list DrawCall) :
  Forall (tile_of side r g b a) l -> filter is_text l = [].
Proof.
  induction 1 as [|c l Hc _ IH]; [reflexivity |].
  destruct c; simpl in *; [exact IH | contradiction].
Qed.

Lemma no_text_in_DrawCircle (center_x center_y radius r g b a : R)
    (con : option mjrContext) :
  filter is_text (DrawCircle center_x center_y radius r g b a con) = [].
Proof. eapply no_text_in_tiles, DrawCircle_tiles. Qed.

Lemma no_text_in_DrawFilledCircle (center_x center_y radius r g b a : R)
    (con : option mjrContext) :
  filter is_text (DrawFilledCircle center_x center_y radius r g b a con) = [].
Proof.
  unfold DrawFilledCircle.
  generalize (seq 0 (Z.to_nat (static_cast_int (radius / 2)))); intros idx.
  induction idx as [|i idx IH]; cbn [DrawFilledCircle_rings];
    [reflexivity |].
  destruct (Rltb (radius - INR i * 2) 0); [reflexivity |].
  rewrite filter_app, IH, no_text_in_DrawCircle; reflexivity.
Qed.

Lemma no_text_in_segments (center_x center_y radius : R)
    (con : option mjrContext) (segs : list Segment) :
  filter is_text (flat_map (draw_segment center_x center_y radius con) segs)
  = [].
Proof.
  induction segs as [|s segs IH]; [reflexivity |].
  cbn [flat_map]; rewrite filter_app, IH, app_nil_r.
  unfold draw_segment; destruct (seg_zone s);
    eapply no_text_in_tiles, DrawArc_tiles.
Qed.

Lemma no_text_in_needle (center_x center_y needle_x needle_y half : R)
    (n : nat) (side : Z) :
  filter is_text
    (draw_needle center_x center_y needle_x needle_y n half side) = [].
Proof.
  unfold draw_needle; generalize (seq 0 n); intros l.
  induction l as [|i l IH]; [reflexivity | exact IH].
Qed.

Lemma no_text_in_background (center_x center_y radius : R)
    (con : option mjrContext) :
  filter is_text (draw_background center_x center_y radius con) = [].
Proof.
  unfold draw_background.
  rewrite !filter_app, no_text_in_DrawFilledCircle.
  rewrite !no_text_in_DrawCircle.
  reflexivity.
Qed.

Lemma three_texts_in_hub (center_x center_y radius hub : R) (readout : Text)
    (unit_name gauge_name : string) (con : option mjrContext) :
  List.length
    (filter is_text
       (draw_hub center_x center_y radius hub readout unit_name gauge_name
          con)) = 3%nat.
Proof.
  unfold draw_hub.
  rewrite !filter_app, no_text_in_DrawFilledCircle.
  rewrite !no_text_in_DrawCircle.
  reflexivity.
Qed.

(** X20: whatever a widget holds and wherever it stands, one [render] with
    a context makes the same number of text calls: 10 on the speedometer
    (seven scale labels, the readout, the unit, the name), 12 on the
    tachometer and 9 on the fuel gauge; every other host call is a
    rectangle. *)
Theorem render_text_calls_are_fixed :
  forall (s : Speedometer) (t : Tachometer) (f : FuelGauge),
    List.length (filter is_text (Speedometer.draw s)) = 10%nat
    /\ List.length (filter is_text (Tachometer.draw t)) = 12%nat
    /\ List.length (filter is_text (FuelGauge.draw f)) = 9%nat.
Proof.
  intros s t f; repeat split.
  - unfold Speedometer.draw.
    rewrite !filter_app, no_text_in_background, no_text_in_segments,
      no_text_in_needle, !length_app, three_texts_in_hub.
    reflexivity.
  - unfold Tachometer.draw.
    rewrite !filter_app, no_text_in_background, no_text_in_segments,
      no_text_in_needle, !length_app, three_texts_in_hub.
    reflexivity.
  - unfold FuelGauge.draw.
    rewrite !filter_app, no_text_in_background, no_text_in_segments,
      no_text_in_needle, !length_app, three_texts_in_hub.
    reflexivity.
Qed.
